(** * Product store service: the model layer and the REST routes

    A shallow embedding of [service/models.py], [service/routes.py] and
    [service/common/error_handlers.py].

    - Python values that reach the service through [request.get_json()] are
      the inductive [pyval]; a [dict] is a [gmap string pyval].
    - [str] is modelled as ASCII text ([string]); [str.upper] and [str.lower]
      act on the letters a-z / A-Z.  Text outside ASCII is outside the model
      (Python maps a few such characters to ASCII letters).
    - A Python [float] is an IEEE-754 double, [spec_float]; [float(int)] is the
      correctly rounded conversion, which raises [OverflowError] when the
      result does not fit.  The text grammar of [float(str)] belongs to the
      interpreter and is taken as the parameter [float_of_str].
    - Exceptions are values of [exn]; a method of [Product] is a function from
      the receiver to an outcome and the receiver as the method left it.
    - The table [products] is a [gmap Z Product] keyed by the primary key,
      together with the sequence that feeds the key. *)

From Stdlib Require Import ZArith String Ascii Bool.
From Stdlib Require Import Floats.SpecFloat.
From stdpp Require Import gmap strings list fin_maps pretty.

Set Warnings "-register-all".
Local Open Scope string_scope.

(** The interpreter's parser behind [float(s)] for a [str] argument:
    [None] stands for [ValueError]. *)
Class FloatGrammar := float_of_str : string → option spec_float.

(* ===================================================================== *)
(** ** Python values, exceptions and the builtins the service calls      *)
(* ===================================================================== *)
Module Py.

Inductive pyval : Type :=
  | PNone
  | PBool (b : bool)
  | PInt (z : Z)
  | PFloat (f : spec_float)
  | PStr (s : string)
  | PList (l : list pyval)
  | PDict (m : gmap string pyval).

(** [DataValidationError] is raised with an f-string: the literal prefix and
    the exception whose [str()] is spliced in.  [HTTPException] is what
    [abort(code, description)] raises. *)
Inductive exn : Type :=
  | KeyError (key : string)
  | ValueError (text : string)
  | TypeError
  | AttributeError
  | OverflowError
  | IntegrityError
  | DataValidationError (prefix : string) (error : exn)
  | HTTPException (code : Z) (description : string).

Definition result (A : Type) : Type := exn + A.

#[global] Instance result_ret : MRet result := λ A x, inr x.

#[global] Instance result_bind : MBind result := λ A B k r,
  match r with
  | inr x => k x
  | inl e => inl e
  end.

Definition upper_char (c : ascii) : ascii :=
  let n := N_of_ascii c in
  if ((97 <=? n) && (n <=? 122))%N then ascii_of_N (n - 32) else c.

Definition lower_char (c : ascii) : ascii :=
  let n := N_of_ascii c in
  if ((65 <=? n) && (n <=? 90))%N then ascii_of_N (n + 32) else c.

(** [s.upper()] and [s.lower()] on ASCII text: the letters a-z and A-Z
    change case and nothing else does.  Python also turns a few characters
    outside ASCII into ASCII letters; a fact that rests on the case of a
    text says that the text is ASCII. *)
Fixpoint upper (s : string) : string :=
  match s with
  | EmptyString => EmptyString
  | String c s' => String (upper_char c) (upper s')
  end.

Fixpoint lower (s : string) : string :=
  match s with
  | EmptyString => EmptyString
  | String c s' => String (lower_char c) (lower s')
  end.

(** [data[key]]: only a dict can be subscripted by a [str]. *)
Definition getitem (data : pyval) (key : string) : result pyval :=
  match data with
  | PDict m =>
      match m !! key with
      | Some v => inr v
      | None => inl (KeyError key)
      end
  | _ => inl TypeError
  end.

(** [data.get(key, default)] *)
Definition get (data : pyval) (key : string) (dflt : pyval) : result pyval :=
  match data with
  | PDict m => inr (default dflt (m !! key))
  | _ => inl AttributeError
  end.

(** [v.upper()]: an attribute of [str] only. *)
Definition upper_method (v : pyval) : result string :=
  match v with
  | PStr s => inr (upper s)
  | _ => inl AttributeError
  end.

(** [float(z)] for an [int]. *)
Definition float_of_int (z : Z) : result spec_float :=
  match binary_normalize 53 1024 z 0 false with
  | S754_infinity _ => inl OverflowError
  | f => inr f
  end.

(** [float(v)] *)
Definition float `{FloatGrammar} (v : pyval) : result spec_float :=
  match v with
  | PBool b => float_of_int (if b then 1 else 0)
  | PInt z => float_of_int z
  | PFloat f => inr f
  | PStr s =>
      match float_of_str s with
      | Some f => inr f
      | None => inl (ValueError s)
      end
  | PNone | PList _ | PDict _ => inl TypeError
  end.

(** [if x:] on a value that is [None] or a [str]: the branch is taken on a
    non-empty string, here returned. *)
Definition truthy (x : option string) : option string :=
  match x with
  | Some s => if String.eqb s "" then None else Some s
  | None => None
  end.

End Py.

(* ===================================================================== *)
(** ** service/models.py                                                 *)
(* ===================================================================== *)
Module Models.
Import Py.

(** [class Category(Enum)]: member names and their values. *)
Inductive Category : Type := ELECTRONICS | CLOTHING | FOOD | BOOKS | OTHER.

Definition Category_name (c : Category) : string :=
  match c with
  | ELECTRONICS => "ELECTRONICS"
  | CLOTHING => "CLOTHING"
  | FOOD => "FOOD"
  | BOOKS => "BOOKS"
  | OTHER => "OTHER"
  end.

Definition Category_value (c : Category) : string :=
  match c with
  | ELECTRONICS => "Electronics"
  | CLOTHING => "Clothing"
  | FOOD => "Food"
  | BOOKS => "Books"
  | OTHER => "Other"
  end.

Definition Category_members : list Category :=
  [ELECTRONICS; CLOTHING; FOOD; BOOKS; OTHER].

(** [Category[key]]: lookup of a member by its name. *)
Definition Category_getitem (key : string) : result Category :=
  match List.find (λ c, String.eqb (Category_name c) key) Category_members with
  | Some c => inr c
  | None => inl (KeyError key)
  end.

#[global] Instance Category_eq_dec : EqDecision Category.
Proof. solve_decision. Defined.

(** [class Product(db.Model)]: the attributes of an instance.  A fresh
    [Product()] has every attribute [None]. *)
Record Product : Type := mkProduct {
  id : option Z;
  name : pyval;
  description : pyval;
  category : option Category;
  available : pyval;
  price : option spec_float
}.

Definition Product_new : Product :=
  {| id := None; name := PNone; description := PNone; category := None;
     available := PNone; price := None |}.

(** A method body: it runs on the receiver [self], returns or raises, and
    leaves [self] as its assignments made it. *)
Definition method (A : Type) : Type := Product → result A * Product.

#[global] Instance method_ret : MRet method := λ A x self, (inr x, self).

#[global] Instance method_bind : MBind method := λ A B k c self,
  match c self with
  | (inr x, self') => k x self'
  | (inl e, self') => (inl e, self')
  end.

Definition raise {A} (e : exn) : method A := λ self, (inl e, self).

(** An expression that does not touch [self]. *)
Definition eval {A} (r : result A) : method A := λ self, (r, self).

Definition set_name (v : pyval) : method unit := λ self,
  (inr (), {| id := id self; name := v; description := description self;
              category := category self; available := available self;
              price := price self |}).

Definition set_description (v : pyval) : method unit := λ self,
  (inr (), {| id := id self; name := name self; description := v;
              category := category self; available := available self;
              price := price self |}).

Definition set_category (c : Category) : method unit := λ self,
  (inr (), {| id := id self; name := name self; description := description self;
              category := Some c; available := available self;
              price := price self |}).

Definition set_available (v : pyval) : method unit := λ self,
  (inr (), {| id := id self; name := name self; description := description self;
              category := category self; available := v;
              price := price self |}).

Definition set_price (f : spec_float) : method unit := λ self,
  (inr (), {| id := id self; name := name self; description := description self;
              category := category self; available := available self;
              price := Some f |}).

(** [try: body except ...: handler] *)
Definition try_except {A} (body : method A) (handler : exn → method A) : method A :=
  λ self,
    match body self with
    | (inl e, self') => handler e self'
    | r => r
    end.

(** [Product.serialize] *)
Definition serialize (self : Product) : result pyval :=
  match category self with
  | None => inl AttributeError
  | Some c =>
      inr (PDict {[ "id" := from_option PInt PNone (id self);
                    "name" := name self;
                    "description" := description self;
                    "category" := PStr (Category_value c);
                    "available" := available self;
                    "price" := from_option PFloat PNone (price self) ]})
  end.

(** The [except] clauses of [deserialize]: the exception that leaves the
    method for the one raised in the [try] block. *)
Definition deserialize_except (error : exn) : exn :=
  match error with
  | KeyError _ => DataValidationError "Missing key: " error
  | ValueError _ => DataValidationError "Invalid value: " error
  | _ => error
  end.

(** [Product.deserialize] *)
Definition deserialize `{FloatGrammar} (data : pyval) : method unit :=
  try_except
    (v ← eval (getitem data "name"); set_name v;;
     d ← eval (get data "description" (PStr "")); set_description d;;
     l ← eval (getitem data "category");
     u ← eval (upper_method l);
     c ← eval (Category_getitem u); set_category c;;
     a ← eval (get data "available" (PBool true)); set_available a;;
     p ← eval (getitem data "price");
     f ← eval (float p); set_price f)
    (λ error, raise (deserialize_except error)).

End Models.

(* ===================================================================== *)
(** ** The table behind [db.session] and [Product.query]                 *)
(* ===================================================================== *)
Module Db.
Import Py Models.

(** The table [products], keyed by the primary key [id], and the sequence
    the key is drawn from on INSERT.  A row holds the attribute values of
    the object as they were committed; a commit is refused when a column
    declared [nullable=False] is NULL or a key is taken.  How an engine
    adapts a value to the type of its column, and the limits it puts on
    lengths, are not modelled. *)
Record Database : Type := mkDatabase {
  products : gmap Z Product;
  sequence : Z
}.

(** One keyword argument of [query.filter_by(...)].  [category=None] is the
    SQL test [category IS NULL]. *)
Inductive criterion : Type :=
  | by_name (s : string)
  | by_category (c : option Category)
  | by_available (b : bool).

(** [Product.query] and what [filter_by] makes of it: the criteria, all of
    which a row has to meet. *)
Definition Query : Type := list criterion.

Definition query : Query := [].

Definition filter_by (q : Query) (c : criterion) : Query := (q ++ [c])%list.

Definition meets (p : Product) (c : criterion) : bool :=
  match c with
  | by_name s =>
      match name p with
      | PStr t => String.eqb t s
      | _ => false
      end
  | by_category c => bool_decide (category p = c)
  | by_available b =>
      match available p with
      | PBool b' => Bool.eqb b' b
      | _ => false
      end
  end.

(** [q.all()]; the order of the rows is the engine's. *)
Definition all (q : Query) (db : Database) : list Product :=
  List.filter (λ p, forallb (meets p) q) (map_to_list (products db)).*2.

(** [Product.query.get(product_id)] *)
Definition get (db : Database) (product_id : Z) : option Product :=
  products db !! product_id.

(** The columns declared [nullable=False]. *)
Definition not_null (p : Product) : bool :=
  match name p, category p, price p with
  | PNone, _, _ | _, None, _ | _, _, None => false
  | _, _, _ => true
  end.

Definition with_id (p : Product) (k : Z) : Product :=
  {| id := Some k; name := name p; description := description p;
     category := category p; available := available p; price := price p |}.

(** [db.session.add(product); db.session.commit()]: the INSERT.  A product
    whose [id] is [None] takes the next value of the sequence; the object is
    returned as the session refreshes it.  This is the commit of an object
    whose values are of the types of their columns: the default of the
    column [available], what an engine makes of a value of another type,
    and the value of the sequence that a refused INSERT uses up are left
    out, and a fact that rests on them says so. *)
Definition add_commit (p : Product) (db : Database) : result (Product * Database) :=
  if negb (not_null p) then inl IntegrityError
  else
    match id p with
    | None =>
        let k := sequence db in
        match products db !! k with
        | Some _ => inl IntegrityError
        | None =>
            inr (with_id p k,
                 {| products := <[k := with_id p k]> (products db);
                    sequence := (k + 1)%Z |})
        end
    | Some k =>
        match products db !! k with
        | Some _ => inl IntegrityError
        | None =>
            inr (p, {| products := <[k := p]> (products db);
                       sequence := sequence db |})
        end
    end.

(** [db.session.commit()] after the row loaded under [product_id] was
    changed in place: the UPDATE, of an object whose values are of the types
    of their columns. *)
Definition update_commit (product_id : Z) (p : Product) (db : Database)
  : result Database :=
  if negb (not_null p) then inl IntegrityError
  else inr {| products := <[product_id := p]> (products db);
              sequence := sequence db |}.

(** [db.session.delete(product); db.session.commit()] *)
Definition delete_commit (product_id : Z) (db : Database) : Database :=
  {| products := delete product_id (products db); sequence := sequence db |}.

End Db.

(* ===================================================================== *)
(** ** service/common/error_handlers.py and service/routes.py            *)
(* ===================================================================== *)
Module Routes.
Import Py Models Db.

(** What a view reads of [flask.request]: the headers, the query string
    ([request.args], first value wins) and the body as [get_json()] parses
    it ([None]: the body is not JSON). *)
Record Request : Type := mkRequest {
  headers : gmap string string;
  args : list (string * string);
  json : option pyval
}.

(** A response body: text, [jsonify(value)], or the error envelope
    [jsonify(status=, error=, message=str(error))], kept with the exception
    whose [str()] is the message. *)
Inductive Body : Type :=
  | Text (s : string)
  | Json (v : pyval)
  | Envelope (status : Z) (error : string) (message : exn).

Record Response : Type := mkResponse {
  status_code : Z;
  body : Body;
  location : option string
}.

(** The constants of [service/common/status.py], a module the views import
    and whose text is not among the sources. *)

(** Modelled from the spec: a constant of [service/common/status.py]; the
    spec lists 200 (OK) among the status codes used. *)
Definition HTTP_200_OK : Z := 200.

(** Modelled from the spec: a constant of [service/common/status.py]; the
    spec lists 201 (Created) among the status codes used. *)
Definition HTTP_201_CREATED : Z := 201.

(** Modelled from the spec: a constant of [service/common/status.py]; the
    spec lists 204 (No Content) among the status codes used. *)
Definition HTTP_204_NO_CONTENT : Z := 204.

(** Modelled from the spec: a constant of [service/common/status.py]; the
    spec lists 400 (Bad Request) among the status codes used. *)
Definition HTTP_400_BAD_REQUEST : Z := 400.

(** Modelled from the spec: a constant of [service/common/status.py]; the
    spec lists 404 (Not Found) among the status codes used. *)
Definition HTTP_404_NOT_FOUND : Z := 404.

(** Modelled from the spec: a constant of [service/common/status.py]; the
    spec lists 405 (Method Not Allowed) among the status codes used. *)
Definition HTTP_405_METHOD_NOT_ALLOWED : Z := 405.

(** Modelled from the spec: a constant of [service/common/status.py]; the
    spec lists 415 (Unsupported Media Type) among the status codes used. *)
Definition HTTP_415_UNSUPPORTED_MEDIA_TYPE : Z := 415.

(** Modelled from the spec: a constant of [service/common/status.py]; the
    spec lists 500 (Internal Server Error) among the status codes used. *)
Definition HTTP_500_INTERNAL_SERVER_ERROR : Z := 500.

(** [abort(code, description)] *)
Definition abort {A} (code : Z) (description : string) : result A :=
  inl (HTTPException code description).

(** [request.args.get(key)] *)
Definition args_get (request : Request) (key : string) : option string :=
  snd <$> List.find (λ kv, String.eqb (fst kv) key) (args request).

(** The description of werkzeug's [BadRequest]. *)
Definition bad_request_description : string :=
  "The browser (or proxy) sent a request that this server could not understand.".

(** [request.get_json()] once the content type is JSON: a body that does not
    parse is a 400. *)
Definition get_json (request : Request) : result pyval :=
  match json request with
  | Some data => inr data
  | None => abort HTTP_400_BAD_REQUEST bad_request_description
  end.

(** [url_for(get_products, product_id=..., _external=True)], the host left out. *)
Definition url_for_get_products (product_id : option Z) : string :=
  "/products/" ++ from_option pretty "None" product_id.

(** *** Error handlers *)

Definition error_response (status : Z) (error : string) (e : exn) : Response :=
  {| status_code := status; body := Envelope status error e; location := None |}.

Definition bad_request (error : exn) : Response :=
  error_response HTTP_400_BAD_REQUEST "Bad Request" error.

Definition request_validation_error (error : exn) : Response :=
  bad_request error.

Definition not_found (error : exn) : Response :=
  error_response HTTP_404_NOT_FOUND "Not Found" error.

Definition method_not_supported (error : exn) : Response :=
  error_response HTTP_405_METHOD_NOT_ALLOWED "Method not Allowed" error.

Definition mediatype_not_supported (error : exn) : Response :=
  error_response HTTP_415_UNSUPPORTED_MEDIA_TYPE "Unsupported media type" error.

Definition internal_server_error (error : exn) : Response :=
  error_response HTTP_500_INTERNAL_SERVER_ERROR "Internal Server Error" error.

(** The dispatch of [@app.errorhandler]: by exception class, by the code of
    an [abort] (a code without a handler is answered as it is); any other
    exception reaches the handler of 500. *)
Definition handle_exception (e : exn) : Response :=
  match e with
  | DataValidationError _ _ => request_validation_error e
  | HTTPException 400 _ => bad_request e
  | HTTPException 404 _ => not_found e
  | HTTPException 405 _ => method_not_supported e
  | HTTPException 415 _ => mediatype_not_supported e
  | HTTPException 500 _ => internal_server_error e
  | HTTPException code description =>
      {| status_code := code; body := Text description; location := None |}
  | _ => internal_server_error e
  end.

(** *** Views *)

Definition check_content_type (request : Request) (content_type : string)
  : result unit :=
  match headers request !! "Content-Type" with
  | None =>
      abort HTTP_415_UNSUPPORTED_MEDIA_TYPE
            ("Content-Type must be " ++ content_type)
  | Some ct =>
      if negb (String.eqb ct content_type)
      then abort HTTP_415_UNSUPPORTED_MEDIA_TYPE
                 ("Content-Type must be " ++ content_type)
      else inr ()
  end.

(** A view returns its response and the table as its commits left it, or
    raises. *)
Definition view : Type := Request → Database → result (Response * Database).

(** Running a method on an object: the exception, or the object as changed. *)
Definition call (m : method unit) (self : Product) : result Product :=
  match m self with
  | (inr _, self') => inr self'
  | (inl e, _) => inl e
  end.

(** POST /products *)
Definition create_products `{FloatGrammar} : view := λ request db,
  check_content_type request "application/json";;
  data ← get_json request;
  product ← call (deserialize data) Product_new;
  '(product, db') ← add_commit product db;
  payload ← serialize product;
  mret ({| status_code := HTTP_201_CREATED;
           body := Json payload;
           location := Some (url_for_get_products (id product)) |}, db').

(** The [if]/[elif] chain of [list_products]: the query it builds. *)
Definition list_products_query (request : Request) : result Query :=
  let name := args_get request "name" in
  let category_str := args_get request "category" in
  let available_str := args_get request "available" in
  match truthy name with
  | Some name => mret (filter_by query (by_name name))
  | None =>
      match truthy category_str with
      | Some category_str =>
          match Category_getitem (upper category_str) with
          | inr category => mret (filter_by query (by_category (Some category)))
          | inl (KeyError _) => mret (filter_by query (by_category None))
          | inl e => inl e
          end
      | None =>
          match truthy available_str with
          | Some available_str =>
              let available :=
                bool_decide (lower available_str ∈ ["true"; "1"; "yes"]) in
              mret (filter_by query (by_available available))
          | None => mret query
          end
      end
  end.

(** [[p.serialize() for p in rows]] *)
Fixpoint serialize_all (rows : list Product) : result (list pyval) :=
  match rows with
  | [] => inr []
  | p :: rows' =>
      v ← serialize p;
      vs ← serialize_all rows';
      mret (v :: vs)
  end.

(** GET /products *)
Definition list_products : view := λ request db,
  q ← list_products_query request;
  results ← serialize_all (all q db);
  mret ({| status_code := HTTP_200_OK; body := Json (PList results);
           location := None |}, db).

Definition not_found_description (product_id : Z) : string :=
  "Product with id '" ++ pretty product_id ++ "' was not found.".

(** GET /products/<int:product_id> *)
Definition get_products (product_id : Z) : view := λ request db,
  match get db product_id with
  | None => abort HTTP_404_NOT_FOUND (not_found_description product_id)
  | Some product =>
      payload ← serialize product;
      mret ({| status_code := HTTP_200_OK; body := Json payload;
               location := None |}, db)
  end.

(** PUT /products/<int:product_id> *)
Definition update_products `{FloatGrammar} (product_id : Z) : view := λ request db,
  check_content_type request "application/json";;
  match get db product_id with
  | None => abort HTTP_404_NOT_FOUND (not_found_description product_id)
  | Some product =>
      data ← get_json request;
      product ← call (deserialize data) product;
      db' ← update_commit product_id product db;
      payload ← serialize product;
      mret ({| status_code := HTTP_200_OK; body := Json payload;
               location := None |}, db')
  end.

(** DELETE /products/<int:product_id> *)
Definition delete_products (product_id : Z) : view := λ request db,
  match get db product_id with
  | Some product =>
      mret ({| status_code := HTTP_204_NO_CONTENT; body := Text "";
               location := None |}, delete_commit product_id db)
  | None =>
      mret ({| status_code := HTTP_204_NO_CONTENT; body := Text "";
               location := None |}, db)
  end.

(** One request served by the application: the view's response, or the
    error handler's when the view raises.  A view that raises has not
    committed (what follows a commit in a view does not raise on a row the
    commit took), and its session is dropped, so the rows are as they
    were. *)
Definition serve (v : view) (request : Request) (db : Database)
  : Response * Database :=
  match v request db with
  | inr (response, db') => (response, db')
  | inl e => (handle_exception e, db)
  end.

(** The routing table built by the [@app.route] decorators. *)
Inductive endpoint : Type :=
  | CreateProducts
  | ListProducts
  | GetProducts (product_id : Z)
  | UpdateProducts (product_id : Z)
  | DeleteProducts (product_id : Z).

Definition route `{FloatGrammar} (e : endpoint) : view :=
  match e with
  | CreateProducts => create_products
  | ListProducts => list_products
  | GetProducts product_id => get_products product_id
  | UpdateProducts product_id => update_products product_id
  | DeleteProducts product_id => delete_products product_id
  end.

(** The table after a series of requests, served one after the other. *)
Fixpoint run `{FloatGrammar} (requests : list (endpoint * Request))
    (db : Database) : Database :=
  match requests with
  | [] => db
  | (e, request) :: requests' => run requests' (serve (route e) request db).2
  end.

End Routes.

(* ===================================================================== *)
(** ** The vocabulary of the specification                               *)
(* ===================================================================== *)
Module Spec.
Import Py Models Db Routes.

(** A label names a category when it equals the category's value once the
    case of the letters is ignored. *)
Definition same_label (label : string) (c : Category) : Prop :=
  lower label = lower (Category_value c).

(** A label that names no category. *)
Definition unknown_label (label : string) : Prop :=
  ∀ c : Category, ¬ same_label label c.

#[global] Instance same_label_dec (label : string) (c : Category) :
  Decision (same_label label c).
Proof. unfold same_label. apply _. Defined.

(** The category a label names, if it names one. *)
Definition category_of_label (label : string) : option Category :=
  List.find (λ c, bool_decide (same_label label c)) Category_members.

(** The request with [data] as its JSON body. *)
Definition with_json (request : Request) (data : pyval) : Request :=
  {| headers := headers request; args := args request; json := Some data |}.

(** A validation error is the exception that the handler
    [request_validation_error] answers with 400. *)
Definition validation_error (e : exn) : Prop :=
  ∃ prefix error, e = DataValidationError prefix error.

(** The receiver after the assignments to [name] and [description]. *)
Definition assigned_name (self : Product) (n d : pyval) : Product :=
  {| id := id self; name := n; description := d; category := category self;
     available := available self; price := price self |}.

(** The receiver after the assignments to [name], [description], [category]
    and [available]. *)
Definition assigned_category (self : Product) (n d : pyval) (c : Category)
    (a : pyval) : Product :=
  {| id := id self; name := n; description := d; category := Some c;
     available := a; price := price self |}.

(** The receiver after all five assignments. *)
Definition assigned_price (self : Product) (n d : pyval) (c : Category)
    (a : pyval) (f : spec_float) : Product :=
  {| id := id self; name := n; description := d; category := Some c;
     available := a; price := Some f |}.

(** The constraints the schema puts on the table: the [nullable=False]
    columns are filled, a row is stored under its own [id], and the sequence
    is ahead of every key in use. *)
Definition schema (db : Database) : Prop :=
  ∀ k p, products db !! k = Some p →
         not_null p = true ∧ id p = Some k ∧ (k < sequence db)%Z.

End Spec.

(* ===================================================================== *)
(** ** Sample data                                                       *)
(* ===================================================================== *)
Module Examples.
Import Py Models Db Routes.

Definition digit (c : ascii) : option Z :=
  let n := N_of_ascii c in
  if ((48 <=? n) && (n <=? 57))%N then Some (Z.of_N (n - 48)) else None.

Fixpoint digits (acc : Z) (s : string) : option Z :=
  match s with
  | EmptyString => Some acc
  | String c s' =>
      match digit c with
      | Some d => digits (10 * acc + d) s'
      | None => None
      end
  end.

(** The part of the grammar of [float(str)] made of the non-empty strings of
    ASCII digits; every other text is refused.  It serves to run the
    definitions on concrete requests. *)
Definition digits_grammar : FloatGrammar := λ s,
  match s with
  | EmptyString => None
  | _ =>
      match digits 0 s with
      | Some z => Some (binary_normalize 53 1024 z 0 false)
      | None => None
      end
  end.

Definition json_request (data : pyval) : Request :=
  {| headers := {[ "Content-Type" := "application/json" ]};
     args := [];
     json := Some data |}.

Definition query_request (params : list (string * string)) : Request :=
  {| headers := ∅; args := params; json := None |}.

Definition empty_db : Database := {| products := ∅; sequence := 1 |}.

Definition hat : Product :=
  {| id := Some 1%Z; name := PStr "Hat"; description := PStr "A red hat";
     category := Some CLOTHING; available := PBool true;
     price := Some (S754_finite false 25 (-1)) |}.

Definition hat_db : Database := {| products := {[ 1%Z := hat ]}; sequence := 2 |}.

End Examples.

(* ===================================================================== *)
(** ** service/models.py: the persistence methods and the finders        *)
(* ===================================================================== *)
Module ModelQueries.
Import Py Models Db.

(** [Product.create]: [db.session.add(self); db.session.commit()] *)
Definition create (self : Product) (db : Database) : result (Product * Database) :=
  add_commit self db.

(** [Product.all]: [cls.query.all()] *)
Definition Product_all (db : Database) : list Product := all query db.

(** [Product.find]: [cls.query.get(product_id)] *)
Definition find (db : Database) (product_id : Z) : option Product :=
  get db product_id.

(** [Product.find_by_category]: [cls.query.filter_by(category=category).all()] *)
Definition find_by_category (category : option Category) (db : Database)
  : list Product :=
  all (filter_by query (by_category category)) db.

(** [Product.find_by_availability]:
    [cls.query.filter_by(available=available).all()] *)
Definition find_by_availability (available : bool) (db : Database)
  : list Product :=
  all (filter_by query (by_available available)) db.

(** The SQL test [text ILIKE pattern] on ASCII text: [%] stands for any run
    of characters, [_] for any one character, every other character for
    itself in either case.  Patterns that hold the escape character are not
    given to it (see [find_by_name]). *)
Fixpoint ilike (pattern : string) : string → bool :=
  match pattern with
  | EmptyString =>
      λ text, match text with EmptyString => true | String _ _ => false end
  | String c pattern' =>
      if Ascii.eqb c "%" then
        fix any (text : string) : bool :=
          ilike pattern' text
          || match text with
             | EmptyString => false
             | String _ text' => any text'
             end
      else if Ascii.eqb c "_" then
        λ text,
          match text with
          | EmptyString => false
          | String _ text' => ilike pattern' text'
          end
      else
        λ text,
          match text with
          | EmptyString => false
          | String d text' =>
              Ascii.eqb (lower_char c) (lower_char d) && ilike pattern' text'
          end
  end.

(** The text holds the character that engines may read as the escape of a
    LIKE pattern. *)
Fixpoint has_backslash (s : string) : bool :=
  match s with
  | EmptyString => false
  | String c s' => Ascii.eqb c "\" || has_backslash s'
  end.

(** [Product.find_by_name]:
    [cls.query.filter(cls.name.ilike(f"%{name}%")).all()].  A row is kept
    when its name is a text the pattern matches.  A search text with a
    backslash is read differently from engine to engine and has no result
    here. *)
Definition find_by_name (name_ : string) (db : Database) : option (list Product) :=
  if has_backslash name_ then None
  else
    Some (List.filter
            (λ p, match name p with
                  | PStr text => ilike ("%" ++ name_ ++ "%") text
                  | _ => false
                  end)
            (map_to_list (products db)).*2).

End ModelQueries.

(* ===================================================================== *)
(** ** features/steps/web_steps.py: the ids of the page elements         *)
(* ===================================================================== *)
Module WebSteps.
Import Py.

Definition ID_PREFIX : string := "product_".

(** [s.replace(' ', '_')] *)
Fixpoint replace_space (s : string) : string :=
  match s with
  | EmptyString => EmptyString
  | String c s' =>
      String (if Ascii.eqb c " " then "_"%char else c) (replace_space s')
  end.

(** [ID_PREFIX + field_name.lower().replace(' ', '_')] *)
Definition element_id (field_name : string) : string :=
  ID_PREFIX ++ replace_space (lower field_name).

(** [button.lower().replace(' ', '_') + '-btn'] *)
Definition button_id (button : string) : string :=
  replace_space (lower button) ++ "-btn".

End WebSteps.

(* ===================================================================== *)
(** ** More vocabulary                                                   *)
(* ===================================================================== *)
Module Vocabulary.
Import Py Models Db Routes.

(** The product is a row of the table. *)
Definition stored (db : Database) (p : Product) : Prop :=
  ∃ k, products db !! k = Some p.

(** [text] has a run of characters equal to [s] once case is ignored. *)
Definition contains_nocase (text s : string) : Prop :=
  ∃ before run after, text = before ++ run ++ after ∧ lower run = lower s.

(** No character of the text is a wildcard of LIKE or the backslash. *)
Fixpoint plain (s : string) : bool :=
  match s with
  | EmptyString => true
  | String c s' =>
      negb (Ascii.eqb c "%") && negb (Ascii.eqb c "_")
      && negb (Ascii.eqb c "\") && plain s'
  end.

(** The character is an upper-case letter A-Z. *)
Definition is_upper (c : ascii) : bool :=
  let n := N_of_ascii c in ((65 <=? n) && (n <=? 90))%N.

(** A response is the error envelope of its own status code. *)
Definition enveloped (r : Response) : Prop :=
  ∃ error message, body r = Envelope (status_code r) error message.

(** [s.isascii()]: on such a text [str.upper] and [str.lower] are the
    [upper] and [lower] of this file, and the characters are as many as the
    bytes. *)
Fixpoint isascii (s : string) : bool :=
  match s with
  | EmptyString => true
  | String c s' => (N_of_ascii c <? 128)%N && isascii s'
  end.

(** The characters of a text that every engine stores as they are: ASCII
    without NUL. *)
Fixpoint column_chars (s : string) : bool :=
  match s with
  | EmptyString => true
  | String c s' =>
      (0 <? N_of_ascii c)%N && (N_of_ascii c <? 128)%N && column_chars s'
  end.

(** The value is a text that a [db.String(limit)] column takes as it is. *)
Definition fits_String (limit : nat) (v : pyval) : bool :=
  match v with
  | PStr s => (String.length s <=? limit)%nat && column_chars s
  | _ => false
  end.

(** The value is a boolean, which a [db.Boolean] column takes as it is. *)
Definition fits_Boolean (v : pyval) : bool :=
  match v with
  | PBool _ => true
  | _ => false
  end.

(** The float is a number: neither an infinity nor a NaN. *)
Definition finite (f : spec_float) : bool :=
  match f with
  | S754_zero _ | S754_finite _ _ _ => true
  | S754_infinity _ | S754_nan => false
  end.

(** The values of the product are of the types of their columns
    (models.py, lines 28 to 32), so that a commit stores them and reads
    them back as they are: name a text of at most 255 characters,
    description None or a text of at most 1024, a category, available a
    boolean, price a finite float. *)
Definition storable (p : Product) : bool :=
  fits_String 255 (name p)
  && match description p with
     | PNone => true
     | d => fits_String 1024 d
     end
  && match category p with Some _ => true | None => false end
  && fits_Boolean (available p)
  && match price p with Some f => finite f | None => false end.

End Vocabulary.

(* ===================================================================== *)
(** ** Facts about the builtins and the enumeration                      *)
(* ===================================================================== *)
Module PyFacts.
Import Py Models.

Lemma lower_upper_char (c : ascii) : lower_char (upper_char c) = lower_char c.
Proof. destruct c as [[] [] [] [] [] [] [] []]; reflexivity. Qed.

Lemma upper_lower_char (c : ascii) : upper_char (lower_char c) = upper_char c.
Proof. destruct c as [[] [] [] [] [] [] [] []]; reflexivity. Qed.

Lemma lower_upper (s : string) : lower (upper s) = lower s.
Proof.
  induction s as [|c s IH]; simpl; [reflexivity|].
  now rewrite lower_upper_char, IH.
Qed.

Lemma upper_lower (s : string) : upper (lower s) = upper s.
Proof.
  induction s as [|c s IH]; simpl; [reflexivity|].
  now rewrite upper_lower_char, IH.
Qed.

(** Two texts that agree once case is ignored have the same upper-case form,
    and conversely. *)
Lemma upper_eq_iff_lower_eq (s t : string) : upper s = upper t ↔ lower s = lower t.
Proof.
  split; intros E.
  - rewrite <- (lower_upper s), <- (lower_upper t). now rewrite E.
  - rewrite <- (upper_lower s), <- (upper_lower t). now rewrite E.
Qed.

(** Every member is named by its value in upper case. *)
Lemma Category_name_upper_value (c : Category) :
  Category_name c = upper (Category_value c).
Proof. destruct c; reflexivity. Qed.

Lemma Category_getitem_name (c : Category) :
  Category_getitem (Category_name c) = inr c.
Proof. destruct c; reflexivity. Qed.

Lemma Category_getitem_inr (key : string) (c : Category) :
  Category_getitem key = inr c → key = Category_name c.
Proof.
  unfold Category_getitem.
  destruct (List.find _ _) as [c'|] eqn:F; [|discriminate].
  intros [= ->]. apply List.find_some in F as [_ E].
  apply String.eqb_eq in E. now symmetry.
Qed.

Lemma Category_getitem_inl (key : string) (e : exn) :
  Category_getitem key = inl e → e = KeyError key.
Proof.
  unfold Category_getitem.
  destruct (List.find _ _); [discriminate|]. now intros [= <-].
Qed.

Lemma Category_getitem_iff (key : string) (c : Category) :
  Category_getitem key = inr c ↔ key = Category_name c.
Proof.
  split; [apply Category_getitem_inr|].
  intros ->. apply Category_getitem_name.
Qed.

End PyFacts.

(* ===================================================================== *)
(** ** Facts about [Product.serialize] and [Product.deserialize]         *)
(* ===================================================================== *)
Module ModelsFacts.
Import Py Models Spec PyFacts.

Section WithGrammar.
Context `{FloatGrammar}.

(** The code compares the label with the member names in upper case; this
    is the comparison without case of the specification. *)
Lemma Category_getitem_same_label (label : string) (c : Category) :
  Category_getitem (upper label) = inr c ↔ same_label label c.
Proof.
  rewrite Category_getitem_iff, Category_name_upper_value.
  apply upper_eq_iff_lower_eq.
Qed.

Lemma Category_getitem_unknown_label (label : string) :
  Category_getitem (upper label) = inl (KeyError (upper label)) ↔ unknown_label label.
Proof.
  split.
  - intros E c Hc. apply Category_getitem_same_label in Hc. congruence.
  - intros U. destruct (Category_getitem (upper label)) as [e|c] eqn:E.
    + now rewrite (Category_getitem_inl _ _ E).
    + apply Category_getitem_same_label in E. now destruct (U c).
Qed.

(** [deserialize] on a dict, statement by statement. *)
Lemma deserialize_dict (m : gmap string pyval) (self : Product) :
  deserialize (PDict m) self =
  match m !! "name" with
  | None => (inl (DataValidationError "Missing key: " (KeyError "name")), self)
  | Some n =>
      let d := default (PStr "") (m !! "description") in
      match m !! "category" with
      | None =>
          (inl (DataValidationError "Missing key: " (KeyError "category")),
           assigned_name self n d)
      | Some l =>
          match upper_method l with
          | inl e => (inl (deserialize_except e), assigned_name self n d)
          | inr u =>
              match Category_getitem u with
              | inl e => (inl (deserialize_except e), assigned_name self n d)
              | inr c =>
                  let a := default (PBool true) (m !! "available") in
                  match m !! "price" with
                  | None =>
                      (inl (DataValidationError "Missing key: " (KeyError "price")),
                       assigned_category self n d c a)
                  | Some p =>
                      match float p with
                      | inl e =>
                          (inl (deserialize_except e),
                           assigned_category self n d c a)
                      | inr f => (inr (), assigned_price self n d c a f)
                      end
                  end
              end
          end
      end
  end.
Proof.
  unfold deserialize, try_except, mbind, method_bind, eval, raise, getitem, get.
  destruct (m !! "name") as [n|]; [|reflexivity].
  destruct (m !! "category") as [l|]; [|reflexivity].
  destruct (upper_method l) as [e|u]; [reflexivity|].
  destruct (Category_getitem u) as [e|c]; [reflexivity|].
  destruct (m !! "price") as [p|]; [|reflexivity].
  destruct (float p) as [e|f]; reflexivity.
Qed.

(** [deserialize] never assigns [id]. *)
Lemma deserialize_id (data : pyval) (self : Product) :
  id (deserialize data self).2 = id self.
Proof.
  destruct data; try reflexivity.
  rewrite deserialize_dict.
  repeat match goal with
         | |- context [match ?x with _ => _ end] => destruct x
         end; reflexivity.
Qed.

(** C1. For every input mapping that has the keys name, category (a text
    that names a category once case is ignored) and price (a value that
    [float] accepts), deserialize succeeds and serialize then returns the
    mapping with the input's name, its description (the empty text when
    absent), the category's value in its canonical case, its available
    (true when absent) and the price as a float; id is the receiver's own,
    not the input's. *)
Theorem deserialize_serialize_roundtrip (self : Product) (m : gmap string pyval)
    (n : pyval) (label : string) (c : Category) (p : pyval) (f : spec_float) :
  m !! "name" = Some n →
  m !! "category" = Some (PStr label) →
  same_label label c →
  m !! "price" = Some p →
  float p = inr f →
  ∃ self',
    deserialize (PDict m) self = (inr (), self') ∧
    serialize self' =
      inr (PDict {[ "id" := from_option PInt PNone (id self);
                    "name" := n;
                    "description" := default (PStr "") (m !! "description");
                    "category" := PStr (Category_value c);
                    "available" := default (PBool true) (m !! "available");
                    "price" := PFloat f ]}).
Proof.
  intros Hn Hl Hc Hp Hf.
  apply Category_getitem_same_label in Hc.
  rewrite deserialize_dict, Hn, Hl. simpl upper_method. cbv iota beta.
  rewrite Hc, Hp, Hf.
  eexists. split; reflexivity.
Qed.

(** C3, as the code has it.  When deserialize fails, id and price hold
    their prior values, and the other fields are as the assignments
    before the failing statement left them: none is made when the input is
    not a mapping or lacks name; name and description are assigned when the
    statement of category fails; name, description, category and available
    are assigned when the statement of price fails. *)
Theorem deserialize_failure_assignments (data : pyval) (self self' : Product)
    (e : exn) :
  deserialize data self = (inl e, self') →
  id self' = id self ∧ price self' = price self ∧
  match getitem data "name" with
  | inl _ => self' = self
  | inr n =>
      ∃ m, data = PDict m ∧
        let d := default (PStr "") (m !! "description") in
        match l ← getitem data "category"; u ← upper_method l; Category_getitem u with
        | inl _ => self' = assigned_name self n d
        | inr c =>
            self' = assigned_category self n d c
                      (default (PBool true) (m !! "available"))
        end
  end.
Proof.
  intros E.
  destruct data as [| | | | | |m];
    try (injection E as _ <-; repeat split; reflexivity).
  rewrite deserialize_dict in E. unfold getitem.
  destruct (m !! "name") as [n|];
    [|injection E as _ <-; repeat split; reflexivity].
  cbv zeta in E.
  destruct (m !! "category") as [l|]; simpl;
    [|injection E as _ <-; repeat split; eexists; split; reflexivity].
  destruct (upper_method l) as [e1|u]; simpl;
    [injection E as _ <-; repeat split; eexists; split; reflexivity|].
  destruct (Category_getitem u) as [e1|c]; simpl;
    [injection E as _ <-; repeat split; eexists; split; reflexivity|].
  destruct (m !! "price") as [p|];
    [|injection E as _ <-; repeat split; eexists; split; reflexivity].
  destruct (float p) as [e1|f]; [|discriminate].
  injection E as _ <-; repeat split; eexists; split; reflexivity.
Qed.

(** What holds of C2 on the code.  On a mapping whose category, when
    present, is a text and whose price, when present, is a value that
    [float] accepts or refuses with ValueError, deserialize raises a
    validation error exactly when name, category or price is absent, the
    category names no member, or the price is refused; otherwise it
    succeeds. *)
Lemma deserialize_validation_error_iff (m : gmap string pyval) (self : Product) :
  (∀ v, m !! "category" = Some v → ∃ label, v = PStr label) →
  (∀ v, m !! "price" = Some v →
        (∃ f, float v = inr f) ∨ (∃ s, float v = inl (ValueError s))) →
  let invalid :=
    m !! "name" = None ∨ m !! "category" = None ∨ m !! "price" = None
    ∨ (∃ label, m !! "category" = Some (PStr label) ∧ unknown_label label)
    ∨ (∃ v s, m !! "price" = Some v ∧ float v = inl (ValueError s)) in
  (invalid → ∃ e, (deserialize (PDict m) self).1 = inl e ∧ validation_error e)
  ∧ (¬ invalid → (deserialize (PDict m) self).1 = inr ()).
Proof.
  intros Tc Tp invalid. subst invalid. rewrite deserialize_dict.
  destruct (m !! "name") as [n|];
    [|split; [intros _; eexists; split; [reflexivity|now eexists _, _]|tauto]].
  destruct (m !! "category") as [l|];
    [|split; [intros _; eexists; split; [reflexivity|now eexists _, _]|tauto]].
  destruct (Tc l eq_refl) as [label ->]. simpl upper_method. cbv iota beta zeta.
  destruct (Category_getitem (upper label)) as [e|c] eqn:E.
  { pose proof (Category_getitem_inl _ _ E) as ->.
    split; [intros _; eexists; split; [reflexivity|now eexists _, _]|].
    intros N. exfalso. apply N. do 3 right. left. exists label.
    split; [reflexivity|]. now apply Category_getitem_unknown_label. }
  apply Category_getitem_same_label in E.
  destruct (m !! "price") as [p|];
    [|split; [intros _; eexists; split; [reflexivity|now eexists _, _]|tauto]].
  destruct (Tp p eq_refl) as [[f Hf]|[s Hs]].
  - rewrite Hf. split; [|reflexivity].
    intros [?|[?|[?|[(label' & [= <-] & U)|(v & s & [= <-] & Hs)]]]];
      try discriminate.
    + now destruct (U c).
    + congruence.
  - rewrite Hs. split; [intros _; eexists; split; [reflexivity|now eexists _, _]|].
    intros N. exfalso. apply N. do 4 right. now exists p, s.
Qed.

End WithGrammar.

Lemma deserialize_serialize_roundtrip_witness :
  ∃ self',
    deserialize (H:=Examples.digits_grammar)
      (PDict {[ "name" := PStr "Hat"; "category" := PStr "fOOd";
                "price" := PStr "12" ]}) Product_new = (inr (), self') ∧
    serialize self' =
      inr (PDict {[ "id" := PNone;
                    "name" := PStr "Hat";
                    "description" := PStr "";
                    "category" := PStr "Food";
                    "available" := PBool true;
                    "price" := PFloat (S754_finite false 6755399441055744 (-49)) ]}).
Proof.
  pose proof (deserialize_serialize_roundtrip (H:=Examples.digits_grammar)
                Product_new
                {[ "name" := PStr "Hat"; "category" := PStr "fOOd";
                   "price" := PStr "12" ]}
                (PStr "Hat") "fOOd" FOOD (PStr "12")
                (S754_finite false 6755399441055744 (-49))
                eq_refl eq_refl eq_refl eq_refl eq_refl) as W.
  vm_compute in W. vm_compute. exact W.
Defined.

(** C3 as stated fails: a mapping with a name and no category makes
    deserialize fail after name and description have been overwritten. *)
Lemma deserialize_failure_overwrites_name :
  deserialize (H:=Examples.digits_grammar) (PDict {[ "name" := PStr "Cap" ]})
    Examples.hat
  = (inl (DataValidationError "Missing key: " (KeyError "category")),
     assigned_name Examples.hat (PStr "Cap") (PStr ""))
  ∧ name (assigned_name Examples.hat (PStr "Cap") (PStr "")) = PStr "Cap"
  ∧ name Examples.hat = PStr "Hat"
  ∧ description (assigned_name Examples.hat (PStr "Cap") (PStr "")) = PStr ""
  ∧ description Examples.hat = PStr "A red hat".
Proof. repeat split. Qed.

Lemma deserialize_failure_assignments_witness :
  deserialize (H:=Examples.digits_grammar) (PDict {[ "name" := PStr "Cap" ]})
    Examples.hat
  = (inl (DataValidationError "Missing key: " (KeyError "category")),
     assigned_name Examples.hat (PStr "Cap") (PStr ""))
  ∧ id (assigned_name Examples.hat (PStr "Cap") (PStr "")) = id Examples.hat
  ∧ price (assigned_name Examples.hat (PStr "Cap") (PStr "")) = price Examples.hat.
Proof.
  pose proof (deserialize_failure_assignments (H:=Examples.digits_grammar)
                (PDict {[ "name" := PStr "Cap" ]}) Examples.hat
                (assigned_name Examples.hat (PStr "Cap") (PStr ""))
                (DataValidationError "Missing key: " (KeyError "category"))
                eq_refl) as (Hid & Hprice & _).
  split; [reflexivity|exact (conj Hid Hprice)].
Defined.

End ModelsFacts.

(* ===================================================================== *)
(** ** Facts about the views                                             *)
(* ===================================================================== *)
Module RoutesFacts.
Import Py Models Db Routes Spec PyFacts ModelsFacts.

Lemma check_content_type_refuses (request : Request) (content_type : string) :
  headers request !! "Content-Type" ≠ Some content_type →
  check_content_type request content_type =
    abort HTTP_415_UNSUPPORTED_MEDIA_TYPE ("Content-Type must be " ++ content_type).
Proof.
  intros Hne. unfold check_content_type.
  destruct (headers request !! "Content-Type") as [ct|]; [|reflexivity].
  destruct (String.eqb_spec ct content_type) as [->|]; [congruence|reflexivity].
Qed.

Lemma check_content_type_passes (request : Request) (content_type : string) :
  headers request !! "Content-Type" = Some content_type →
  check_content_type request content_type = inr ().
Proof.
  intros E. unfold check_content_type. now rewrite E, String.eqb_refl.
Qed.

Section WithGrammar.
Context `{FloatGrammar}.

(** Closes a goal that tells two concrete status codes apart. *)
Ltac status_differs := vm_compute; discriminate.

(** The exceptions that can leave each step of a view. *)
Lemma float_inl (v : pyval) (e : exn) :
  float v = inl e → e = TypeError ∨ e = OverflowError ∨ ∃ s, e = ValueError s.
Proof.
  assert (∀ z, float_of_int z = inl e → e = OverflowError) as Hz.
  { intros z. unfold float_of_int.
    destruct (binary_normalize 53 1024 z 0 false); congruence. }
  destruct v as [|b|z|f|s|l|m]; simpl; try (intros [= <-]; tauto).
  - intros E. right. left. eapply Hz, E.
  - intros E. right. left. eapply Hz, E.
  - destruct (float_of_str s); intros [= <-]. right. right. now exists s.
Qed.

Lemma deserialize_inl (data : pyval) (self self' : Product) (e : exn) :
  deserialize data self = (inl e, self') →
  e = TypeError ∨ e = AttributeError ∨ e = OverflowError ∨ validation_error e.
Proof.
  destruct data as [| | | | | |m]; try (intros [= <- _]; tauto).
  rewrite deserialize_dict.
  destruct (m !! "name") as [n|];
    [|intros [= <- _]; do 3 right; now eexists _, _].
  destruct (m !! "category") as [l|];
    [|intros [= <- _]; do 3 right; now eexists _, _].
  cbv zeta.
  destruct (upper_method l) as [e1|u] eqn:U.
  { destruct l; simpl in U; try discriminate U; injection U as <-;
      intros [= <- _]; tauto. }
  destruct (Category_getitem u) as [e1|c] eqn:C.
  { pose proof (Category_getitem_inl _ _ C) as ->.
    intros [= <- _]; do 3 right; now eexists _, _. }
  destruct (m !! "price") as [p|];
    [|intros [= <- _]; do 3 right; now eexists _, _].
  destruct (float p) as [e1|f] eqn:F; [|discriminate].
  intros [= <- _].
  destruct (float_inl _ _ F) as [->|[->|[s ->]]]; simpl; try tauto.
  do 3 right; now eexists _, _.
Qed.

Lemma handle_deserialize_inl (e : exn) :
  e = TypeError ∨ e = AttributeError ∨ e = OverflowError ∨ validation_error e →
  status_code (handle_exception e) = 500%Z ∨ status_code (handle_exception e) = 400%Z.
Proof.
  intros [->|[->|[->|(prefix & error & ->)]]]; simpl; tauto.
Qed.

(** C10. The content-type check of POST /products and of PUT /products/id
    lets through only the header value that is exactly application/json:
    whenever the header is absent or holds any other text, the answer is
    the 415 response of the check, whatever the body and the table are, and
    the table is left as it was; with the exact value, the answer is never
    415. *)
Theorem content_type_checked_first (request : Request) (db : Database)
    (product_id : Z) :
  (headers request !! "Content-Type" ≠ Some "application/json" →
   serve create_products request db =
     (mediatype_not_supported
        (HTTPException 415 "Content-Type must be application/json"), db)
   ∧ serve (update_products product_id) request db =
     (mediatype_not_supported
        (HTTPException 415 "Content-Type must be application/json"), db)
   ∧ status_code
       (mediatype_not_supported
          (HTTPException 415 "Content-Type must be application/json")) = 415%Z)
  ∧ (headers request !! "Content-Type" = Some "application/json" →
     status_code (serve create_products request db).1 ≠ 415%Z
     ∧ status_code (serve (update_products product_id) request db).1 ≠ 415%Z).
Proof.
  split.
  { intros Hne. unfold serve, create_products, update_products.
    rewrite (check_content_type_refuses _ _ Hne). repeat split. }
  intros Hct.
  unfold serve, create_products, update_products, mbind, result_bind,
    get_json, call.
  rewrite (check_content_type_passes _ _ Hct).
  split.
  - destruct (json request) as [data|]; [|status_differs].
    destruct (deserialize data Product_new) as [[e|[]] p] eqn:D.
    { simpl. destruct (handle_deserialize_inl e (deserialize_inl _ _ _ _ D))
        as [->| ->]; lia. }
    unfold add_commit. destruct (negb (not_null p)); [status_differs|].
    destruct (id p) as [k|].
    + destruct (products db !! k); [status_differs|].
      unfold serialize. destruct (category p); status_differs.
    + destruct (products db !! sequence db); [status_differs|].
      unfold serialize. destruct (category (with_id p (sequence db)));
        status_differs.
  - destruct (get db product_id) as [p0|]; [|status_differs].
    destruct (json request) as [data|]; [|status_differs].
    destruct (deserialize data p0) as [[e|[]] p] eqn:D.
    { simpl. destruct (handle_deserialize_inl e (deserialize_inl _ _ _ _ D))
        as [->| ->]; lia. }
    unfold update_commit. destruct (negb (not_null p)); [status_differs|].
    unfold serialize. destruct (category p); status_differs.
Qed.

(** C4, on the code.  Whatever is not a mapping makes the first subscript
    of deserialize raise TypeError, which no except clause catches: it is
    not a validation error, the receiver is untouched, and POST /products
    answers 500. *)
Theorem deserialize_non_mapping_type_error (data : pyval) (self : Product)
    (db : Database) :
  match data with
  | PDict _ => True
  | _ =>
      deserialize data self = (inl TypeError, self)
      ∧ ¬ validation_error TypeError
      ∧ serve create_products (Examples.json_request data) db =
          (internal_server_error TypeError, db)
      ∧ status_code (internal_server_error TypeError) = 500%Z
  end.
Proof.
  destruct data; try exact I;
    (split; [reflexivity|split; [intros (? & ? & [=])|split; reflexivity]]).
Qed.

(** C2, on the code.  A mapping with a name, a known category and a price
    of null: the price cannot be made a number, yet what leaves deserialize
    is the TypeError of [float], not a validation error, and POST
    /products answers 500. *)
Theorem deserialize_null_price_type_error (self : Product) (db : Database) :
  deserialize
    (PDict {[ "name" := PStr "Hat"; "category" := PStr "Food";
              "price" := PNone ]}) self
  = (inl TypeError,
     assigned_category self (PStr "Hat") (PStr "") FOOD (PBool true))
  ∧ ¬ validation_error TypeError
  ∧ serve create_products
      (Examples.json_request
         (PDict {[ "name" := PStr "Hat"; "category" := PStr "Food";
                   "price" := PNone ]})) db
    = (internal_server_error TypeError, db).
Proof.
  split; [reflexivity|split; [intros (? & ? & [=])|reflexivity]].
Qed.

(** The client's [id] entry is never read. *)
Lemma deserialize_ignores_id (m : gmap string pyval) (v : pyval) (self : Product) :
  deserialize (PDict (<["id" := v]> m)) self = deserialize (PDict m) self.
Proof.
  rewrite !deserialize_dict.
  now rewrite !(lookup_insert_ne m "id") by discriminate.
Qed.

(** What a POST that answers has done. *)
Lemma create_products_inr (request : Request) (db db' : Database) (r : Response) :
  create_products request db = inr (r, db') →
  ∃ data p,
    json request = Some data
    ∧ deserialize data Product_new = (inr (), p)
    ∧ not_null p = true
    ∧ products db !! sequence db = None
    ∧ db' = {| products := <[sequence db := with_id p (sequence db)]> (products db);
               sequence := (sequence db + 1)%Z |}
    ∧ status_code r = 201%Z.
Proof.
  unfold create_products, mbind, result_bind, get_json, call.
  destruct (check_content_type request "application/json") as [e|[]]; [discriminate|].
  destruct (json request) as [data|]; [|discriminate].
  destruct (deserialize data Product_new) as [[e|[]] p] eqn:D; [discriminate|].
  pose proof (deserialize_id data Product_new) as Hid. rewrite D in Hid.
  simpl in Hid. unfold add_commit. rewrite Hid.
  destruct (not_null p) eqn:N; [|discriminate]. simpl.
  destruct (products db !! sequence db) eqn:L; [discriminate|].
  destruct (serialize (with_id p (sequence db))); [discriminate|].
  intros [= <- <-]. exists data, p. repeat split; assumption.
Qed.

(** What a PUT does to the table: nothing, or it stores the row again
    under its key, as deserialize changed it. *)
Lemma update_products_table (product_id : Z) (request : Request) (db : Database)
    (p : Product) :
  get db product_id = Some p →
  (serve (update_products product_id) request db).2 = db
  ∨ ∃ data p',
      deserialize data p = (inr (), p')
      ∧ not_null p' = true
      ∧ (serve (update_products product_id) request db).2 =
          {| products := <[product_id := p']> (products db);
             sequence := sequence db |}.
Proof.
  intros G. unfold serve, update_products, mbind, result_bind, get_json, call.
  destruct (check_content_type request "application/json") as [e|[]]; [now left|].
  rewrite G.
  destruct (json request) as [data|]; [|now left].
  destruct (deserialize data p) as [[e|[]] p'] eqn:D; [now left|].
  unfold update_commit.
  destruct (not_null p') eqn:N; [|now left]. simpl.
  destruct (serialize p'); [now left|].
  right. exists data, p'. repeat split; assumption.
Qed.

(** C9. The id is never taken from the client's input: deserialize leaves
    the receiver's id as it was, and behaves the same whatever the mapping
    holds under the key id; POST /products answers the same whatever id the
    body carries, and a product it stores is stored under the next value of
    the store's sequence, which is its id; after PUT /products/id on an
    existing product, the product under that id has the id it had. *)
Theorem id_never_from_client (data : pyval) (m : gmap string pyval) (v : pyval)
    (self : Product) (request : Request) (db : Database) (product_id : Z) :
  id (deserialize data self).2 = id self
  ∧ deserialize (PDict (<["id" := v]> m)) self = deserialize (PDict m) self
  ∧ serve create_products (with_json request (PDict (<["id" := v]> m))) db =
      serve create_products (with_json request (PDict m)) db
  ∧ (∀ r db', create_products request db = inr (r, db') →
       ∃ p, products db' = <[sequence db := p]> (products db)
            ∧ id p = Some (sequence db))
  ∧ (∀ p, get db product_id = Some p →
       ∃ p', get (serve (update_products product_id) request db).2 product_id = Some p'
             ∧ id p' = id p).
Proof.
  split; [apply deserialize_id|].
  split; [apply deserialize_ignores_id|].
  split.
  { unfold serve, create_products, mbind, result_bind, get_json, call, with_json.
    simpl. destruct (check_content_type _ _) as [e|[]]; [reflexivity|].
    now rewrite deserialize_ignores_id. }
  split.
  - intros r db' E.
    apply create_products_inr in E as (d & p & _ & _ & _ & _ & -> & _).
    eexists. split; reflexivity.
  - intros p G.
    destruct (update_products_table product_id request db p G)
      as [->|(d & p' & D & _ & ->)].
    + now exists p.
    + exists p'. split; [apply lookup_insert_eq|].
      pose proof (deserialize_id d p) as Hid. now rewrite D in Hid.
Qed.

(** A table that meets the schema has its next key free. *)
Lemma schema_next_key_free (db : Database) :
  schema db → products db !! sequence db = None.
Proof.
  intros S. destruct (products db !! sequence db) as [p|] eqn:L; [|reflexivity].
  destruct (S _ _ L) as (_ & _ & Lt). lia.
Qed.

(** C8, as the code has it.  An empty name is accepted: on a mapping whose
    name is the empty text, whose category names a category and whose price
    [float] accepts, deserialize succeeds and the name it assigns is the
    empty text.  POST /products with that body and the JSON content type,
    on a table that meets the schema, stores the product and answers 201
    when the values deserialize assigns are of the types of their columns
    (the description a text of at most 1024 characters or null, available a
    boolean, the price finite). *)
Theorem empty_name_accepted (self : Product) (m : gmap string pyval)
    (label : string) (c : Category) (pv : pyval) (f : spec_float)
    (request : Request) (db : Database) :
  m !! "name" = Some (PStr "") →
  m !! "category" = Some (PStr label) →
  same_label label c →
  m !! "price" = Some pv →
  float pv = inr f →
  (∃ self', deserialize (PDict m) self = (inr (), self') ∧ name self' = PStr "")
  ∧ (headers request !! "Content-Type" = Some "application/json" →
     json request = Some (PDict m) →
     Vocabulary.storable
       (assigned_price Product_new (PStr "")
          (default (PStr "") (m !! "description")) c
          (default (PBool true) (m !! "available")) f) = true →
     schema db →
     status_code (serve create_products request db).1 = 201%Z
     ∧ ∃ p, get (serve create_products request db).2 (sequence db) = Some p
            ∧ name p = PStr "").
Proof.
  intros Hn Hl Hc Hp Hf.
  apply Category_getitem_same_label in Hc.
  assert (∀ s, deserialize (PDict m) s =
               (inr (), assigned_price s (PStr "")
                          (default (PStr "") (m !! "description")) c
                          (default (PBool true) (m !! "available")) f)) as D.
  { intros s. rewrite deserialize_dict, Hn, Hl. simpl upper_method. cbv iota beta.
    now rewrite Hc, Hp, Hf. }
  split; [eexists; split; [apply D|reflexivity]|].
  intros Hct Hj _ Hs. pose proof (schema_next_key_free db Hs) as Hfree.
  unfold serve, create_products, mbind, result_bind, get_json, call.
  rewrite (check_content_type_passes _ _ Hct), Hj, D.
  unfold add_commit. simpl. rewrite Hfree. simpl.
  split; [reflexivity|]. eexists. split; [apply lookup_insert_eq|reflexivity].
Qed.

(** *** The listing *)

(** The code's lookup of a label is the specification's. *)
Lemma same_label_functional (label : string) (c c' : Category) :
  same_label label c → same_label label c' → c = c'.
Proof.
  unfold same_label. intros -> E. destruct c, c'; (reflexivity || discriminate E).
Qed.

Lemma category_of_label_Some (label : string) (c : Category) :
  category_of_label label = Some c ↔ Category_getitem (upper label) = inr c.
Proof.
  rewrite Category_getitem_same_label. unfold category_of_label. split.
  - intros F. apply List.find_some in F as [_ F]. now apply bool_decide_eq_true in F.
  - intros S.
    destruct (List.find _ Category_members) as [c'|] eqn:F.
    + apply List.find_some in F as [_ F]. apply bool_decide_eq_true in F.
      f_equal. eapply same_label_functional; eassumption.
    + eapply List.find_none with (x := c) in F; [|destruct c; simpl; tauto].
      apply bool_decide_eq_false in F. contradiction.
Qed.

Lemma category_of_label_None (label : string) :
  category_of_label label = None ↔ unknown_label label.
Proof.
  split.
  - intros N c S. apply Category_getitem_same_label, category_of_label_Some in S.
    congruence.
  - intros U. destruct (category_of_label label) as [c|] eqn:E; [|reflexivity].
    apply category_of_label_Some, Category_getitem_same_label in E.
    now destruct (U c).
Qed.


Lemma filter_nil_of_all_false {A} (f : A → bool) (l : list A) :
  (∀ x, x ∈ l → f x = false) → List.filter f l = [].
Proof.
  induction l as [|x l IH]; intros Hf; simpl; [reflexivity|].
  rewrite (Hf x) by apply list_elem_of_here.
  apply IH. intros y Hy. apply Hf. now apply list_elem_of_further.
Qed.

(** The rows of a query are rows of the table that meet its criteria. *)
Lemma elem_of_all (q : Query) (db : Database) (p : Product) :
  p ∈ all q db ↔
  (∃ k, products db !! k = Some p) ∧ ∀ c, c ∈ q → meets p c = true.
Proof.
  unfold all. rewrite list_elem_of_In, List.filter_In, <- list_elem_of_In.
  rewrite list_elem_of_fmap, List.forallb_forall.
  split.
  - intros [([k p'] & -> & Hk) Hq]. apply elem_of_map_to_list in Hk.
    split; [now exists k|]. intros c Hc. apply Hq. now apply list_elem_of_In.
  - intros [[k Hk] Hq]. split.
    + exists (k, p). split; [reflexivity|]. now apply elem_of_map_to_list.
    + intros c Hc. apply Hq. now apply list_elem_of_In.
Qed.

(** No row of a table that meets the schema has a NULL category. *)
Lemma all_by_category_None (db : Database) :
  schema db → all [by_category None] db = [].
Proof.
  intros S. unfold all. apply filter_nil_of_all_false.
  intros p Hp. apply list_elem_of_fmap in Hp as ([k p'] & -> & Hk).
  apply elem_of_map_to_list in Hk. destruct (S k p' Hk) as (N & _).
  simpl. rewrite andb_true_r. apply bool_decide_eq_false.
  unfold not_null in N. destruct (name p'), (category p'); congruence.
Qed.

(** C6, as the code has it.  When no non-empty name parameter is given and
    the category parameter is a non-empty ASCII text that names no category,
    GET /products answers 200 with the empty list, for every table that
    meets the schema. *)
Theorem list_products_unknown_category (request : Request) (db : Database)
    (label : string) :
  truthy (args_get request "name") = None →
  truthy (args_get request "category") = Some label →
  Vocabulary.isascii label = true →
  unknown_label label →
  schema db →
  serve list_products request db =
    ({| status_code := 200; body := Json (PList []); location := None |}, db).
Proof.
  intros Hn Hc _ U S.
  apply Category_getitem_unknown_label in U.
  unfold serve, list_products, list_products_query, mbind, result_bind.
  rewrite Hn, Hc, U. unfold mret, result_ret, filter_by, query. simpl app.
  now rewrite (all_by_category_None db S).
Qed.

(** *** The schema is kept *)

Lemma schema_insert (db : Database) (k : Z) (p : Product) :
  schema db → not_null p = true → id p = Some k → (k < sequence db)%Z →
  schema {| products := <[k := p]> (products db); sequence := sequence db |}.
Proof.
  intros S N I L k' p'. simpl. rewrite lookup_insert.
  case_decide as E.
  - subst k'. intros [= <-]. repeat split; assumption.
  - apply S.
Qed.

(** Every request leaves a table that meets the schema, if it was given
    one. *)
Lemma serve_schema (e : endpoint) (request : Request) (db : Database) :
  schema db → schema (serve (route e) request db).2.
Proof.
  intros S. destruct e as [| |k|k|k]; simpl route.
  - unfold serve. destruct (create_products request db) as [?|[r db']] eqn:E;
      [exact S|].
    apply create_products_inr in E as (d & p & _ & _ & N & F & -> & _).
    intros k' p'. simpl. rewrite lookup_insert. case_decide as Ek.
    + subst k'. intros [= <-]. repeat split; [exact N|lia].
    + intros L. destruct (S k' p' L) as (? & ? & ?). repeat split; [done..|lia].
  - unfold serve, list_products, mbind, result_bind.
    destruct (list_products_query request); [exact S|].
    destruct (serialize_all _); exact S.
  - unfold serve, get_products, mbind, result_bind.
    destruct (get db k); [|exact S]. destruct (serialize _); exact S.
  - destruct (get db k) as [p|] eqn:G.
    + destruct (S k p G) as (_ & I & L).
      destruct (update_products_table k request db p G)
        as [->|(d & p' & D & N & ->)]; [exact S|].
      apply schema_insert; [exact S|exact N| |exact L].
      pose proof (deserialize_id d p) as Hid. rewrite D in Hid. simpl in Hid.
      congruence.
    + unfold serve, update_products, mbind, result_bind.
      destruct (check_content_type _ _) as [?|[]]; [exact S|].
      rewrite G. exact S.
  - unfold serve, delete_products. destruct (get db k); simpl; [|exact S].
    intros k' p'. simpl. rewrite lookup_delete. case_decide; [discriminate|apply S].
Qed.

(** The table of a service started empty meets the schema after any series
    of requests. *)
Lemma run_schema (requests : list (endpoint * Request)) (db : Database) :
  schema db → schema (run requests db).
Proof.
  revert db. induction requests as [|[e request] requests IH]; intros db S;
    [exact S|].
  simpl. apply IH. now apply serve_schema.
Qed.

Lemma empty_db_schema : schema Examples.empty_db.
Proof. intros k p. simpl. now rewrite lookup_empty. Qed.

End WithGrammar.

(** C7. DELETE /products/id answers 204 with an empty body for every id,
    present or not, and a lookup of that id afterwards finds nothing, so
    that a GET of it is the 404 response. *)
Theorem delete_products_always_204 (product_id : Z) (request request' : Request)
    (db : Database) :
  let r := serve (delete_products product_id) request db in
  status_code r.1 = 204%Z
  ∧ body r.1 = Text ""
  ∧ get r.2 product_id = None
  ∧ serve (get_products product_id) request' r.2 =
      (not_found (HTTPException 404 (not_found_description product_id)), r.2).
Proof.
  cbv zeta. unfold serve, delete_products.
  destruct (get db product_id) as [p|] eqn:G; simpl.
  - assert (get (delete_commit product_id db) product_id = None) as Hg
      by apply lookup_delete_eq.
    repeat split; [exact Hg|]. unfold get_products. now rewrite Hg.
  - repeat split; [exact G|]. unfold get_products. now rewrite G.
Qed.

(** Deleting leaves every other row as it was. *)
Lemma delete_products_frame (product_id k : Z) (request : Request) (db : Database) :
  k ≠ product_id →
  get (serve (delete_products product_id) request db).2 k = get db k.
Proof.
  intros Hne. unfold serve, delete_products.
  destruct (get db product_id); simpl; [|reflexivity].
  now apply lookup_delete_ne.
Qed.

Lemma content_type_checked_first_witness :
  serve (create_products (H:=Examples.digits_grammar))
    {| headers := {[ "Content-Type" := "application/json; charset=utf-8" ]};
       args := [];
       json := Some (PDict {[ "name" := PStr "Hat"; "category" := PStr "Food";
                              "price" := PInt 3 ]}) |}
    Examples.empty_db
  = (mediatype_not_supported
       (HTTPException 415 "Content-Type must be application/json"),
     Examples.empty_db).
Proof.
  refine (proj1 (proj1 (content_type_checked_first (H:=Examples.digits_grammar)
                          _ Examples.empty_db 0%Z) _)).
  vm_compute. discriminate.
Defined.

Lemma hat_db_schema : schema Examples.hat_db.
Proof.
  intros k p Hk. unfold Examples.hat_db in Hk. simpl in Hk.
  apply lookup_singleton_Some in Hk as [<- <-].
  repeat split.
Qed.



(** C6 as stated fails: with a name parameter as well, the category that
    names no member is never looked at, and the products of that name are
    listed. *)
Lemma unknown_category_beside_name_lists_products :
  category_of_label "zzz" = None
  ∧ serve list_products
      (Examples.query_request [("name", "Hat"); ("category", "zzz")])
      Examples.hat_db
    = ({| status_code := 200;
          body := Json (PList [PDict {[ "id" := PInt 1;
                                        "name" := PStr "Hat";
                                        "description" := PStr "A red hat";
                                        "category" := PStr "Clothing";
                                        "available" := PBool true;
                                        "price" := PFloat (S754_finite false 25 (-1)) ]}]);
          location := None |}, Examples.hat_db).
Proof. split; vm_compute; reflexivity. Qed.

Lemma list_products_unknown_category_witness :
  serve list_products (Examples.query_request [("category", "zzz")])
    Examples.hat_db
  = ({| status_code := 200; body := Json (PList []); location := None |},
     Examples.hat_db).
Proof.
  apply (list_products_unknown_category
           (Examples.query_request [("category", "zzz")]) Examples.hat_db "zzz").
  - reflexivity.
  - reflexivity.
  - reflexivity.
  - apply category_of_label_None. reflexivity.
  - exact hat_db_schema.
Defined.

(** C8 as stated fails: deserialize succeeds on a mapping whose name is
    the empty text, and POST /products answers 201. *)
Lemma empty_name_is_created :
  deserialize (H:=Examples.digits_grammar)
    (PDict {[ "name" := PStr ""; "category" := PStr "Food"; "price" := PInt 1 ]})
    Product_new
  = (inr (),
     {| id := None; name := PStr ""; description := PStr "";
        category := Some FOOD; available := PBool true;
        price := Some (S754_finite false 4503599627370496 (-52)) |})
  ∧ status_code
      (serve (create_products (H:=Examples.digits_grammar))
         (Examples.json_request
            (PDict {[ "name" := PStr ""; "category" := PStr "Food";
                      "price" := PInt 1 ]}))
         Examples.empty_db).1
    = 201%Z.
Proof. split; vm_compute; reflexivity. Qed.

Lemma empty_name_accepted_witness :
  status_code
    (serve (create_products (H:=Examples.digits_grammar))
       (Examples.json_request
          (PDict {[ "name" := PStr ""; "category" := PStr "food";
                    "price" := PStr "12" ]}))
       Examples.empty_db).1
  = 201%Z.
Proof.
  exact (proj1 (proj2 (empty_name_accepted (H:=Examples.digits_grammar)
                         Product_new
                         {[ "name" := PStr ""; "category" := PStr "food";
                            "price" := PStr "12" ]}
                         "food" FOOD (PStr "12")
                         (S754_finite false 6755399441055744 (-49))
                         (Examples.json_request
                            (PDict {[ "name" := PStr ""; "category" := PStr "food";
                                      "price" := PStr "12" ]}))
                         Examples.empty_db
                         eq_refl eq_refl eq_refl eq_refl eq_refl)
                      eq_refl eq_refl eq_refl empty_db_schema)).
Defined.

Lemma id_never_from_client_witness :
  ∃ p',
    get (serve (update_products (H:=Examples.digits_grammar) 1)
           (Examples.json_request
              (PDict {[ "id" := PInt 999; "name" := PStr "Cap";
                        "category" := PStr "clothing"; "price" := PInt 3 ]}))
           Examples.hat_db).2 1 = Some p'
    ∧ id p' = Some 1%Z.
Proof.
  exact (proj2 (proj2 (proj2 (proj2
           (id_never_from_client (H:=Examples.digits_grammar)
              PNone ∅ PNone Product_new
              (Examples.json_request
                 (PDict {[ "id" := PInt 999; "name" := PStr "Cap";
                           "category" := PStr "clothing"; "price" := PInt 3 ]}))
              Examples.hat_db 1))))
         Examples.hat eq_refl).
Defined.

End RoutesFacts.

(* ===================================================================== *)
(** ** Facts about the persistence methods and the finders               *)
(* ===================================================================== *)
Module ModelQueriesFacts.
Import Py Models Db Routes Spec Vocabulary ModelQueries PyFacts ModelsFacts
  RoutesFacts.

Lemma ilike_percent (pattern text : string) :
  ilike (String "%" pattern) text =
  ilike pattern text
  || match text with
     | EmptyString => false
     | String _ text' => ilike (String "%" pattern) text'
     end.
Proof. destruct text; reflexivity. Qed.

Lemma ilike_percent_skip (pattern before text : string) :
  ilike pattern text = true → ilike (String "%" pattern) (before ++ text) = true.
Proof.
  intros M. induction before as [|c before IH].
  - change (ilike (String "%" pattern) text = true).
    rewrite ilike_percent, M. reflexivity.
  - change (ilike (String "%" pattern) (String c (before ++ text)) = true).
    rewrite ilike_percent, IH. apply orb_true_r.
Qed.

Lemma ilike_percent_inv (pattern text : string) :
  ilike (String "%" pattern) text = true →
  ∃ before after, text = before ++ after ∧ ilike pattern after = true.
Proof.
  induction text as [|c text IH]; rewrite ilike_percent; intros M.
  - rewrite orb_false_r in M. now exists "", "".
  - apply orb_true_iff in M as [M|M].
    + now exists "", (String c text).
    + destruct (IH M) as (before & after & -> & M').
      now exists (String c before), after.
Qed.

Lemma ilike_percent_all (text : string) : ilike "%" text = true.
Proof.
  induction text as [|c text IH]; [reflexivity|].
  rewrite ilike_percent, IH. apply orb_true_r.
Qed.

(** A run of the text that equals the head of the pattern up to case is
    matched by it, wildcard or not. *)
Lemma ilike_run (s run pattern rest : string) :
  lower run = lower s →
  ilike pattern rest = true →
  ilike (s ++ pattern) (run ++ rest) = true.
Proof.
  revert run. induction s as [|c s IH]; intros [|d run] E M;
    try discriminate E; [exact M|].
  injection E as Ec Es. specialize (IH run Es M).
  change (ilike (String c (s ++ pattern)) (String d (run ++ rest)) = true).
  destruct (Ascii.eqb c "%") eqn:P.
  { apply Ascii.eqb_eq in P as ->.
    rewrite ilike_percent. apply orb_true_iff. right.
    rewrite ilike_percent, IH. reflexivity. }
  simpl. rewrite P.
  destruct (Ascii.eqb c "_"); [exact IH|].
  rewrite Ec, Ascii.eqb_refl. exact IH.
Qed.

(** Without wildcards the head of the pattern matches only such a run. *)
Lemma ilike_plain_inv (s pattern text : string) :
  plain s = true →
  ilike (s ++ pattern) text = true →
  ∃ run rest, text = run ++ rest ∧ lower run = lower s ∧ ilike pattern rest = true.
Proof.
  revert text. induction s as [|c s IH]; intros text Pl M.
  - now exists "", text.
  - simpl in Pl. apply andb_true_iff in Pl as [Pl Ps].
    apply andb_true_iff in Pl as [Pl _].
    apply andb_true_iff in Pl as [P U].
    apply negb_true_iff in P, U.
    change (ilike (String c (s ++ pattern)) text = true) in M.
    simpl in M. rewrite P, U in M.
    destruct text as [|d text]; [discriminate|].
    apply andb_true_iff in M as [E M]. apply Ascii.eqb_eq in E.
    destruct (IH text Ps M) as (run & rest & -> & Er & Mr).
    exists (String d run), rest. repeat split; [|exact Mr].
    simpl. now rewrite Er, E.
Qed.

Lemma plain_has_no_backslash (s : string) :
  plain s = true → has_backslash s = false.
Proof.
  induction s as [|c s IH]; [reflexivity|]. simpl. intros Pl.
  apply andb_true_iff in Pl as [Pl Ps].
  apply andb_true_iff in Pl as [_ B]. apply negb_true_iff in B.
  now rewrite B, IH.
Qed.

Lemma ilike_contains (s text : string) :
  contains_nocase text s → ilike ("%" ++ s ++ "%") text = true.
Proof.
  intros (before & run & after & -> & E).
  change (ilike (String "%" (s ++ "%")) (before ++ run ++ after) = true).
  apply ilike_percent_skip, ilike_run; [exact E|apply ilike_percent_all].
Qed.

Lemma ilike_plain_contains (s text : string) :
  plain s = true →
  ilike ("%" ++ s ++ "%") text = true → contains_nocase text s.
Proof.
  intros Pl M.
  change (ilike (String "%" (s ++ "%")) text = true) in M.
  apply ilike_percent_inv in M as (before & after & -> & M).
  apply (ilike_plain_inv _ _ _ Pl) in M as (run & rest & -> & E & _).
  now exists before, run, rest.
Qed.

Lemma elem_of_rows (db : Database) (p : Product) :
  p ∈ (map_to_list (products db)).*2 ↔ stored db p.
Proof.
  rewrite list_elem_of_fmap. split.
  - intros ([k p'] & -> & Hk). apply elem_of_map_to_list in Hk. now exists k.
  - intros [k Hk]. exists (k, p). split; [reflexivity|].
    now apply elem_of_map_to_list.
Qed.

(** X15. [find_by_name] with a search text free of backslashes returns
    stored products whose name is a text, among them every one whose name
    contains the search text once case is ignored; when the search text
    holds no [%] and no [_] either, it returns exactly those. *)
Theorem find_by_name_contains (name_ : string) (db : Database) :
  has_backslash name_ = false →
  ∃ rows,
    find_by_name name_ db = Some rows
    ∧ (∀ p, p ∈ rows → stored db p ∧ ∃ text, name p = PStr text)
    ∧ (∀ p text, stored db p → name p = PStr text →
                 contains_nocase text name_ → p ∈ rows)
    ∧ (plain name_ = true →
       ∀ p text, p ∈ rows → name p = PStr text → contains_nocase text name_).
Proof.
  intros B. unfold find_by_name. rewrite B. eexists. split; [reflexivity|].
  split; [|split].
  - intros p Hp. apply list_elem_of_In, List.filter_In in Hp as [Hp M].
    apply list_elem_of_In, elem_of_rows in Hp. split; [exact Hp|].
    destruct (name p); try discriminate M. now eexists.
  - intros p text S N C. apply list_elem_of_In, List.filter_In. split.
    + now apply list_elem_of_In, elem_of_rows.
    + rewrite N. now apply ilike_contains.
  - intros Pl p text Hp N.
    apply list_elem_of_In, List.filter_In in Hp as [_ M]. rewrite N in M.
    now apply ilike_plain_contains.
Qed.

Lemma filter_true {A} (l : list A) : List.filter (λ _, true) l = l.
Proof. induction l as [|x l IH]; simpl; [reflexivity|now rewrite IH]. Qed.

Lemma Product_all_rows (db : Database) :
  Product_all db = (map_to_list (products db)).*2.
Proof. unfold Product_all, all, query. simpl. apply filter_true. Qed.

Lemma rows_insert_length (m : gmap Z Product) (k : Z) (p : Product) :
  m !! k = None →
  List.length (map_to_list (<[k := p]> m)).*2 = S (List.length (map_to_list m).*2).
Proof.
  intros F. rewrite !length_fmap.
  now rewrite (Permutation_length (map_to_list_insert m k p F)).
Qed.

(** X13. When [Product.create] returns for an object whose values are of
    the types of their columns, the product has an id that was free before,
    [Product.find] of that id returns it, its other fields are those of the
    object created, every other id finds what it found before, and
    [Product.all] has one row more. *)
Theorem create_then_find (self p : Product) (db db' : Database) :
  storable self = true →
  create self db = inr (p, db') →
  ∃ k,
    id p = Some k
    ∧ find db k = None
    ∧ find db' k = Some p
    ∧ (∀ k', k' ≠ k → find db' k' = find db k')
    ∧ (name p, description p, category p, available p, price p) =
      (name self, description self, category self, available self, price self)
    ∧ not_null p = true
    ∧ List.length (Product_all db') = S (List.length (Product_all db)).
Proof.
  intros _.
  unfold create, add_commit, find, get. rewrite !Product_all_rows.
  destruct (not_null self) eqn:N; [|discriminate]. simpl.
  destruct (id self) as [k|] eqn:I.
  - destruct (products db !! k) eqn:F; [discriminate|].
    intros [= <- <-]. exists k. simpl.
    repeat split; try assumption.
    + apply lookup_insert_eq.
    + intros k' Hk. now apply lookup_insert_ne.
    + now apply rows_insert_length.
  - destruct (products db !! sequence db) eqn:F; [discriminate|].
    intros [= <- <-]. exists (sequence db). simpl.
    repeat split; try assumption.
    + apply lookup_insert_eq.
    + intros k' Hk. now apply lookup_insert_ne.
    + now apply rows_insert_length.
Qed.

Lemma elem_of_find_by_availability (db : Database) (b : bool) (p : Product) :
  p ∈ find_by_availability b db ↔ stored db p ∧ available p = PBool b.
Proof.
  unfold find_by_availability, filter_by, query. simpl app.
  rewrite elem_of_all. unfold stored. split.
  - intros [S M]. split; [exact S|].
    specialize (M _ (list_elem_of_here _ _)). simpl in M.
    destruct (available p); try discriminate M.
    now apply Bool.eqb_prop in M as ->.
  - intros [S E]. split; [exact S|]. intros x Hx.
    apply list_elem_of_singleton in Hx as ->. simpl. rewrite E.
    apply Bool.eqb_reflx.
Qed.

(** X14. [Product.all] returns the stored products; [find_by_category]
    returns exactly the stored products of that category and
    [find_by_availability] exactly those whose available is that boolean, so
    that no product is found both available and unavailable. *)
Theorem finders_exact (db : Database) (c : option Category) (b : bool)
    (p : Product) :
  (p ∈ Product_all db ↔ stored db p)
  ∧ (p ∈ find_by_category c db ↔ stored db p ∧ category p = c)
  ∧ (p ∈ find_by_availability b db ↔ stored db p ∧ available p = PBool b)
  ∧ ¬ (p ∈ find_by_availability true db ∧ p ∈ find_by_availability false db).
Proof.
  split; [rewrite Product_all_rows; apply elem_of_rows|].
  split; [|split; [apply elem_of_find_by_availability|]].
  - unfold find_by_category, filter_by, query. simpl app.
    rewrite elem_of_all. unfold stored. split.
    + intros [S M]. split; [exact S|].
      specialize (M _ (list_elem_of_here _ _)). simpl in M.
      now apply bool_decide_eq_true in M.
    + intros [S E]. split; [exact S|]. intros x Hx.
      apply list_elem_of_singleton in Hx as ->. simpl.
      now apply bool_decide_eq_true.
  - intros [T F]. apply elem_of_find_by_availability in T as [_ T].
    apply elem_of_find_by_availability in F as [_ F]. congruence.
Qed.

End ModelQueriesFacts.

(* ===================================================================== *)
(** ** More facts about the views                                        *)
(* ===================================================================== *)
Module ViewsFacts.
Import Py Models Db Routes Spec Vocabulary ModelQueries PyFacts ModelsFacts
  RoutesFacts ModelQueriesFacts.

Lemma enveloped_error_response (status : Z) (error : string) (e : exn) :
  enveloped (error_response status error e).
Proof. now exists error, e. Qed.

Lemma list_products_query_total (request : Request) :
  ∃ q, list_products_query request = inr q.
Proof.
  unfold list_products_query.
  destruct (truthy (args_get request "name")); [now eexists|].
  destruct (truthy (args_get request "category")) as [label|].
  { destruct (Category_getitem (upper label)) as [e|c] eqn:E; [|now eexists].
    pose proof (Category_getitem_inl _ _ E) as ->. now eexists. }
  destruct (truthy (args_get request "available")); now eexists.
Qed.

(** The keys of a serialized product. *)
Lemma serialize_inr (p : Product) (v : pyval) :
  serialize p = inr v →
  ∃ m c,
    v = PDict m ∧ category p = Some c
    ∧ m !! "id" = Some (from_option PInt PNone (id p))
    ∧ m !! "name" = Some (name p)
    ∧ m !! "description" = Some (description p)
    ∧ m !! "category" = Some (PStr (Category_value c))
    ∧ m !! "available" = Some (available p)
    ∧ m !! "price" = Some (from_option PFloat PNone (price p)).
Proof.
  unfold serialize. destruct (category p) as [c|]; [|discriminate].
  intros [= <-]. eexists _, c. repeat split; reflexivity.
Qed.

Lemma serialize_not_null (p : Product) :
  not_null p = true → ∃ v, serialize p = inr v.
Proof.
  unfold not_null, serialize. destruct (name p), (category p); try discriminate;
    intros _; now eexists.
Qed.

Lemma serialize_all_inr (rows : list Product) :
  (∀ p, p ∈ rows → not_null p = true) →
  ∃ vs, serialize_all rows = inr vs
        ∧ Forall2 (λ p v, serialize p = inr v) rows vs.
Proof.
  induction rows as [|p rows IH]; intros N.
  - exists []. split; [reflexivity|constructor].
  - destruct (serialize_not_null p (N p (list_elem_of_here _ _))) as [v Hv].
    destruct IH as (vs & Hvs & F).
    { intros p' Hp'. apply N. now apply list_elem_of_further. }
    exists (v :: vs). split; [|now constructor].
    simpl. unfold mbind, result_bind. now rewrite Hv, Hvs.
Qed.

(** What GET /products does on a table that meets the schema. *)
Lemma list_products_run (request : Request) (db : Database) (q : Query) :
  schema db →
  list_products_query request = inr q →
  ∃ vs,
    serve list_products request db =
      ({| status_code := 200; body := Json (PList vs); location := None |}, db)
    ∧ Forall2 (λ p v, serialize p = inr v) (all q db) vs.
Proof.
  intros S Q.
  destruct (serialize_all_inr (all q db)) as (vs & Hvs & F).
  { intros p Hp. apply elem_of_all in Hp as [[k Hk] _]. now destruct (S k p Hk). }
  exists vs. split; [|exact F].
  unfold serve, list_products, mbind, result_bind. now rewrite Q, Hvs.
Qed.

Lemma Forall2_elem_of_r {A B} (R : A → B → Prop) (l : list A) (l' : list B) (y : B) :
  (∀ x y1 y2, R x y1 → R x y2 → y1 = y2) →
  Forall2 R l l' → (y ∈ l' ↔ ∃ x, x ∈ l ∧ R x y).
Proof.
  intros Fun. induction 1 as [|x y' l l' Hxy F IH].
  - split; [intros Hy; inversion Hy|intros (x & Hx & _); inversion Hx].
  - rewrite elem_of_cons, IH. split.
    + intros [->|(x' & Hx' & HR)].
      * exists x. split; [apply list_elem_of_here|exact Hxy].
      * exists x'. split; [now apply list_elem_of_further|exact HR].
    + intros (x' & Hx' & HR). apply elem_of_cons in Hx' as [->|Hx'].
      * left. eapply Fun; eassumption.
      * right. now exists x'.
Qed.

Lemma serialize_functional (p : Product) (v1 v2 : pyval) :
  serialize p = inr v1 → serialize p = inr v2 → v1 = v2.
Proof. congruence. Qed.

(** X9. On a table that meets the schema GET /products answers 200 and
    never fails; the list it returns has one entry for each row that meets
    the query built from the parameters, and a value is listed exactly when
    it is the serialization of such a row; the table is left as it was. *)
Theorem list_products_exact (request : Request) (db : Database) :
  schema db →
  ∃ q vs,
    list_products_query request = inr q
    ∧ serve list_products request db =
        ({| status_code := 200; body := Json (PList vs); location := None |}, db)
    ∧ List.length vs = List.length (all q db)
    ∧ ∀ v, v ∈ vs ↔
           ∃ p, stored db p ∧ (∀ c, c ∈ q → meets p c = true)
                ∧ serialize p = inr v.
Proof.
  intros S. destruct (list_products_query_total request) as [q Q].
  destruct (list_products_run request db q S Q) as (vs & R & F).
  exists q, vs. split; [exact Q|]. split; [exact R|].
  split; [symmetry; eapply Forall2_length, F|].
  intros v. rewrite (Forall2_elem_of_r _ _ _ v serialize_functional F).
  split.
  - intros (p & Hp & Hv). apply elem_of_all in Hp as [St M]. now exists p.
  - intros (p & St & M & Hv). exists p. split; [|exact Hv].
    apply elem_of_all. now split.
Qed.

(** X10. With no non-empty name or category parameter, a non-empty
    available parameter is read as true when it is true, 1 or yes in any
    letter case and as false for every other text; on a table that meets
    the schema the answer is 200 with as many entries as there are stored
    products of that availability, each entry holding that boolean under
    available. *)
Theorem list_products_by_available (request : Request) (db : Database)
    (a : string) :
  schema db →
  truthy (args_get request "name") = None →
  truthy (args_get request "category") = None →
  truthy (args_get request "available") = Some a →
  let b := bool_decide (lower a ∈ ["true"; "1"; "yes"]) in
  ∃ vs,
    serve list_products request db =
      ({| status_code := 200; body := Json (PList vs); location := None |}, db)
    ∧ List.length vs = List.length (find_by_availability b db)
    ∧ ∀ v, v ∈ vs → ∃ m, v = PDict m ∧ m !! "available" = Some (PBool b).
Proof.
  intros S Hn Hc Ha b.
  assert (list_products_query request = inr [by_available b]) as Q.
  { unfold list_products_query. now rewrite Hn, Hc, Ha. }
  destruct (list_products_run request db _ S Q) as (vs & R & F).
  exists vs. split; [exact R|].
  split; [symmetry; eapply Forall2_length, F|].
  intros v Hv.
  apply (Forall2_elem_of_r _ _ _ v serialize_functional F) in Hv as (p & Hp & Hv).
  apply elem_of_find_by_availability in Hp as [_ Av].
  apply serialize_inr in Hv as (m & c & -> & _ & _ & _ & _ & _ & Hm & _).
  exists m. split; [reflexivity|]. now rewrite Hm, Av.
Qed.

(** X12. On a table that meets the schema GET /products/id answers 404,
    with the id in its description, when the id is not stored, and
    otherwise 200 with the serialization of the row, whose id entry is the
    id asked for; the table is left as it was. *)
Theorem get_products_found_or_404 (product_id : Z) (request : Request)
    (db : Database) :
  schema db →
  match get db product_id with
  | None =>
      serve (get_products product_id) request db =
        (not_found (HTTPException 404 (not_found_description product_id)), db)
  | Some p =>
      ∃ m, serialize p = inr (PDict m)
           ∧ m !! "id" = Some (PInt product_id)
           ∧ serve (get_products product_id) request db =
               ({| status_code := 200; body := Json (PDict m);
                   location := None |}, db)
  end.
Proof.
  intros S. unfold serve, get_products.
  destruct (get db product_id) as [p|] eqn:G; [|reflexivity].
  destruct (S product_id p G) as (N & I & _).
  destruct (serialize_not_null p N) as [v Hv].
  destruct (serialize_inr p v Hv) as (m & c & -> & _ & Hid & _).
  exists m. split; [exact Hv|]. split; [now rewrite Hid, I|].
  unfold mbind, result_bind. now rewrite Hv.
Qed.

(** *** The outcomes of the views *)

Ltac in_list := repeat first [apply list_elem_of_here | apply list_elem_of_further].

(** The exception is answered with one of the codes, in the envelope. *)
Definition answered (codes : list Z) (e : exn) : Prop :=
  status_code (handle_exception e) ∈ codes ∧ enveloped (handle_exception e).

Lemma answered_415 (codes : list Z) (description : string) :
  415%Z ∈ codes → answered codes (HTTPException 415 description).
Proof. intros I. split; [exact I|apply enveloped_error_response]. Qed.

Lemma answered_404 (codes : list Z) (description : string) :
  404%Z ∈ codes → answered codes (HTTPException 404 description).
Proof. intros I. split; [exact I|apply enveloped_error_response]. Qed.

Lemma answered_400 (codes : list Z) (description : string) :
  400%Z ∈ codes → answered codes (HTTPException 400 description).
Proof. intros I. split; [exact I|apply enveloped_error_response]. Qed.

Lemma answered_500 (codes : list Z) (e : exn) :
  500%Z ∈ codes →
  e = TypeError ∨ e = AttributeError ∨ e = OverflowError ∨ e = IntegrityError →
  answered codes e.
Proof.
  intros I [->|[->|[->| ->]]]; (split; [exact I|apply enveloped_error_response]).
Qed.

Lemma answered_validation (codes : list Z) (e : exn) :
  400%Z ∈ codes → validation_error e → answered codes e.
Proof.
  intros I (prefix & error & ->). split; [exact I|apply enveloped_error_response].
Qed.

Lemma check_content_type_cases (request : Request) (content_type : string) :
  check_content_type request content_type = inr ()
  ∨ check_content_type request content_type =
      inl (HTTPException 415 ("Content-Type must be " ++ content_type)).
Proof.
  unfold check_content_type.
  destruct (headers request !! "Content-Type") as [ct|]; [|now right].
  destruct (negb (String.eqb ct content_type)); [now right|now left].
Qed.

Section WithGrammar.
Context `{FloatGrammar}.

Lemma deserialize_answered (codes : list Z) (data : pyval) (self self' : Product)
    (e : exn) :
  400%Z ∈ codes → 500%Z ∈ codes →
  deserialize data self = (inl e, self') → answered codes e.
Proof.
  intros I4 I5 D.
  destruct (deserialize_inl _ _ _ _ D) as [->|[->|[->|V]]];
    [apply answered_500; tauto..|now apply answered_validation].
Qed.

Lemma create_products_inl (request : Request) (db : Database) (e : exn) :
  create_products request db = inl e → answered [400; 415; 500]%Z e.
Proof.
  unfold create_products, mbind, result_bind, get_json, call.
  destruct (check_content_type_cases request "application/json") as [-> | ->];
    [|intros [= <-]; apply answered_415; in_list].
  destruct (json request) as [data|];
    [|intros [= <-]; apply answered_400; in_list].
  destruct (deserialize data Product_new) as [[e'|[]] p] eqn:D.
  { intros [= <-]. eapply deserialize_answered; [in_list..|exact D]. }
  destruct (add_commit p db) as [e'|[p' db']] eqn:A.
  { intros [= <-]. apply answered_500; [in_list|]. do 3 right.
    unfold add_commit in A. destruct (negb (not_null p)); [congruence|].
    destruct (id p) as [k|];
      [destruct (products db !! k)|destruct (products db !! sequence db)];
      congruence. }
  destruct (serialize p') as [e'|v] eqn:Sz; [|discriminate].
  intros [= <-]. apply answered_500; [in_list|]. right. left.
  unfold serialize in Sz. destruct (category p'); congruence.
Qed.

(** What a PUT that answers has done. *)
Lemma update_products_inr (product_id : Z) (request : Request) (db db' : Database)
    (r : Response) :
  update_products product_id request db = inr (r, db') →
  ∃ p0 data p v,
    get db product_id = Some p0
    ∧ json request = Some data
    ∧ deserialize data p0 = (inr (), p)
    ∧ not_null p = true
    ∧ serialize p = inr v
    ∧ db' = {| products := <[product_id := p]> (products db);
               sequence := sequence db |}
    ∧ r = {| status_code := 200; body := Json v; location := None |}.
Proof.
  unfold update_products, mbind, result_bind, get_json, call.
  destruct (check_content_type request "application/json") as [?|[]];
    [discriminate|].
  destruct (get db product_id) as [p0|]; [|discriminate].
  destruct (json request) as [data|]; [|discriminate].
  destruct (deserialize data p0) as [[?|[]] p] eqn:D; [discriminate|].
  unfold update_commit. destruct (not_null p) eqn:N; [|discriminate]. simpl.
  destruct (serialize p) as [?|v] eqn:Sz; [discriminate|].
  intros [= <- <-]. now exists p0, data, p, v.
Qed.

Lemma update_products_inl (product_id : Z) (request : Request) (db : Database)
    (e : exn) :
  update_products product_id request db = inl e →
  answered [400; 404; 415; 500]%Z e.
Proof.
  unfold update_products, mbind, result_bind, get_json, call.
  destruct (check_content_type_cases request "application/json") as [-> | ->];
    [|intros [= <-]; apply answered_415; in_list].
  destruct (get db product_id) as [p0|];
    [|intros [= <-]; apply answered_404; in_list].
  destruct (json request) as [data|];
    [|intros [= <-]; apply answered_400; in_list].
  destruct (deserialize data p0) as [[e'|[]] p] eqn:D.
  { intros [= <-]. eapply deserialize_answered; [in_list..|exact D]. }
  unfold update_commit. destruct (negb (not_null p)).
  { intros [= <-]. apply answered_500; [in_list|tauto]. }
  destruct (serialize p) as [e'|v] eqn:Sz; [|discriminate].
  intros [= <-]. apply answered_500; [in_list|]. right. left.
  unfold serialize in Sz. destruct (category p); congruence.
Qed.

Lemma serialize_all_inl (rows : list Product) (e : exn) :
  serialize_all rows = inl e → e = AttributeError.
Proof.
  induction rows as [|p rows IH]; [discriminate|]. simpl.
  unfold mbind, result_bind, serialize.
  destruct (category p); [|congruence].
  destruct (serialize_all rows); [|discriminate]. intros [= <-]. now apply IH.
Qed.

(** X7. The status codes of the service.  POST /products answers 201,
    400, 415 or 500; GET /products 200 or 500; GET /products/id 200, 404 or
    500; PUT /products/id 200, 400, 404, 415 or 500; DELETE /products/id
    always 204.  Every answer of 400 or above is the error envelope
    carrying its own status code. *)
Theorem serve_status (e : endpoint) (request : Request) (db : Database) :
  let r := (serve (route e) request db).1 in
  match e with
  | CreateProducts => status_code r ∈ [201; 400; 415; 500]%Z
  | ListProducts => status_code r ∈ [200; 500]%Z
  | GetProducts _ => status_code r ∈ [200; 404; 500]%Z
  | UpdateProducts _ => status_code r ∈ [200; 400; 404; 415; 500]%Z
  | DeleteProducts _ => status_code r = 204%Z
  end
  ∧ ((status_code r < 400)%Z ∨ enveloped r).
Proof.
  cbv zeta. destruct e as [| |k|k|k]; simpl route; unfold serve.
  - destruct (create_products request db) as [e|[r db']] eqn:E.
    + destruct (create_products_inl _ _ _ E) as [I V]. simpl.
      split; [now apply list_elem_of_further|tauto].
    + apply create_products_inr in E as (_ & _ & _ & _ & _ & _ & _ & St).
      simpl. rewrite St. split; [in_list|left; reflexivity].
  - unfold list_products, mbind, result_bind.
    destruct (list_products_query_total request) as [q ->].
    destruct (serialize_all (all q db)) as [e|vs] eqn:Sz.
    + apply serialize_all_inl in Sz as ->. simpl.
      split; [in_list|right; apply enveloped_error_response].
    + simpl. split; [in_list|left; reflexivity].
  - unfold get_products, mbind, result_bind.
    destruct (get db k) as [p|].
    + destruct (serialize p) as [e|v] eqn:Sz.
      * unfold serialize in Sz. destruct (category p); [discriminate|].
        injection Sz as <-. simpl.
        split; [in_list|right; apply enveloped_error_response].
      * simpl. split; [in_list|left; reflexivity].
    + simpl. split; [in_list|right; apply enveloped_error_response].
  - destruct (update_products k request db) as [e|[r db']] eqn:E.
    + destruct (update_products_inl _ _ _ _ E) as [I V]. simpl.
      split; [now apply list_elem_of_further|tauto].
    + apply update_products_inr in E as (? & ? & ? & ? & _ & _ & _ & _ & _ & _ & ->).
      simpl. split; [in_list|left; reflexivity].
  - unfold delete_products. destruct (get db k); simpl; split;
      first [reflexivity | left; reflexivity].
Qed.

Lemma answered_at_least_400 (codes : list Z) (e : exn) :
  (∀ c, c ∈ codes → (400 ≤ c)%Z) →
  answered codes e → (400 ≤ status_code (handle_exception e))%Z.
Proof. intros L [I _]. now apply L. Qed.

Lemma codes_at_least_400 (c : Z) :
  c ∈ [400; 404; 415; 500]%Z → (400 ≤ c)%Z.
Proof. rewrite !elem_of_cons, elem_of_nil. lia. Qed.

(** X8. What a request does to the rows of the table.  The two GET views
    leave the table as it was.  POST /products either answers 400 or above
    and leaves every row as it was, or answers 201 and adds one row, under
    the next value of the sequence, a key that was free.  PUT /products/id
    either answers 400 or above and leaves the table as it was, or answers
    200 and replaces the row of that id with one of the same id.  DELETE
    /products/id removes the row of that id and nothing else. *)
Theorem serve_table (e : endpoint) (request : Request) (db : Database) :
  let r := (serve (route e) request db).1 in
  let db' := (serve (route e) request db).2 in
  match e with
  | ListProducts | GetProducts _ => db' = db
  | CreateProducts =>
      ((400 ≤ status_code r)%Z ∧ products db' = products db)
      ∨ (status_code r = 201%Z
         ∧ get db (sequence db) = None
         ∧ ∃ p, id p = Some (sequence db)
                ∧ products db' = <[sequence db := p]> (products db))
  | UpdateProducts k =>
      ((400 ≤ status_code r)%Z ∧ db' = db)
      ∨ (status_code r = 200%Z
         ∧ ∃ p0 p, get db k = Some p0 ∧ id p = id p0
                   ∧ db' = {| products := <[k := p]> (products db);
                              sequence := sequence db |})
  | DeleteProducts k =>
      products db' = delete k (products db) ∧ sequence db' = sequence db
  end.
Proof.
  cbv zeta. destruct e as [| |k|k|k]; simpl route; unfold serve.
  - destruct (create_products request db) as [e|[r db']] eqn:E.
    + left. split; [|reflexivity]. simpl.
      eapply answered_at_least_400; [|eapply create_products_inl, E].
      intros c Hc. apply codes_at_least_400. revert Hc.
      rewrite !elem_of_cons. tauto.
    + right. apply create_products_inr in E as (d & p & _ & _ & _ & F & -> & St).
      simpl. split; [exact St|]. split; [exact F|].
      eexists. split; [|reflexivity]. reflexivity.
  - unfold list_products, mbind, result_bind.
    destruct (list_products_query request); [reflexivity|].
    destruct (serialize_all _); reflexivity.
  - unfold get_products, mbind, result_bind.
    destruct (get db k); [|reflexivity]. destruct (serialize _); reflexivity.
  - destruct (update_products k request db) as [e|[r db']] eqn:E.
    + left. split; [|reflexivity]. simpl.
      eapply answered_at_least_400; [|eapply update_products_inl, E].
      apply codes_at_least_400.
    + right.
      apply update_products_inr in E as (p0 & d & p & v & G & _ & D & _ & _ & -> & ->).
      simpl. split; [reflexivity|]. exists p0, p. split; [exact G|].
      split; [|reflexivity].
      pose proof (deserialize_id d p0) as Hid. now rewrite D in Hid.
  - unfold delete_products. destruct (get db k) eqn:G; simpl.
    + split; reflexivity.
    + split; [|reflexivity]. symmetry. now apply delete_id.
Qed.

(** X11. The schema is an invariant of the service: from a table that
    meets it, any series of requests leads to a table that meets it, and on
    that table GET /products answers 200 whatever its parameters. *)
Theorem requests_keep_schema (requests : list (endpoint * Request))
    (request : Request) (db : Database) :
  schema db →
  schema (run requests db)
  ∧ status_code (serve list_products request (run requests db)).1 = 200%Z.
Proof.
  intros S. pose proof (run_schema requests db S) as S'.
  split; [exact S'|].
  destruct (list_products_query_total request) as [q Q].
  destruct (list_products_run request _ q S' Q) as (vs & -> & _). reflexivity.
Qed.

(** The response of a POST that answers. *)
Lemma create_products_response (request : Request) (db db' : Database)
    (r : Response) :
  create_products request db = inr (r, db') →
  ∃ data p v,
    json request = Some data
    ∧ deserialize data Product_new = (inr (), p)
    ∧ serialize (with_id p (sequence db)) = inr v
    ∧ db' = {| products := <[sequence db := with_id p (sequence db)]> (products db);
               sequence := (sequence db + 1)%Z |}
    ∧ r = {| status_code := 201; body := Json v;
             location := Some ("/products/" ++ pretty (sequence db)) |}.
Proof.
  unfold create_products, mbind, result_bind, get_json, call.
  destruct (check_content_type request "application/json") as [e|[]]; [discriminate|].
  destruct (json request) as [data|]; [|discriminate].
  destruct (deserialize data Product_new) as [[e|[]] p] eqn:D; [discriminate|].
  pose proof (deserialize_id data Product_new) as Hid. rewrite D in Hid.
  simpl in Hid. unfold add_commit. rewrite Hid.
  destruct (not_null p) eqn:N; [|discriminate]. simpl.
  destruct (products db !! sequence db) eqn:L; [discriminate|].
  destruct (serialize (with_id p (sequence db))) as [e|v] eqn:Sz; [discriminate|].
  intros [= <- <-]. now exists data, p, v.
Qed.

(** X4. A POST /products that answers 201 returns the serialization of
    the stored product, whose id entry is the new id, and a Location for
    that id; a GET of that id on the resulting table answers 200 with the
    same body. *)
Theorem create_then_get (request request' : Request) (db : Database) :
  status_code (serve create_products request db).1 = 201%Z →
  let r := (serve create_products request db).1 in
  let db' := (serve create_products request db).2 in
  ∃ m,
    body r = Json (PDict m)
    ∧ m !! "id" = Some (PInt (sequence db))
    ∧ location r = Some ("/products/" ++ pretty (sequence db))
    ∧ serve (get_products (sequence db)) request' db' =
        ({| status_code := 200; body := Json (PDict m); location := None |}, db').
Proof.
  cbv zeta. intros St. unfold serve in *.
  destruct (create_products request db) as [e|[r db']] eqn:E.
  { simpl in St. destruct (create_products_inl _ _ _ E) as [I _].
    rewrite St in I. revert I. rewrite !elem_of_cons, elem_of_nil. lia. }
  clear St.
  apply create_products_response in E as (d & p & v & _ & _ & Sz & -> & ->).
  destruct (serialize_inr _ _ Sz) as (m & c & -> & _ & Hid & _).
  exists m. cbn [fst snd body location]. repeat split; [exact Hid|].
  unfold get_products, get, mbind, result_bind. cbn [products].
  rewrite lookup_insert_eq, Sz. reflexivity.
Qed.

(** X5. PUT /products/id replaces every field but the id.  With the JSON
    content type, a stored id and a body that has a name, a category that
    names a member and a price [float] accepts, all of the types of their
    columns, the answer is 200 with the serialization of the new row, and
    the row holds the body's name, category and price, the body's
    description or the empty text when the body has none, the body's
    available or true when it has none, and the id it had. *)
Theorem update_replaces_every_field (product_id : Z) (request : Request)
    (db : Database) (p0 : Product) (m : gmap string pyval) (n : pyval)
    (label : string) (c : Category) (pv : pyval) (f : spec_float) :
  headers request !! "Content-Type" = Some "application/json" →
  get db product_id = Some p0 →
  json request = Some (PDict m) →
  m !! "name" = Some n →
  m !! "category" = Some (PStr label) →
  same_label label c →
  m !! "price" = Some pv →
  float pv = inr f →
  let p := assigned_price p0 n (default (PStr "") (m !! "description")) c
             (default (PBool true) (m !! "available")) f in
  storable p = true →
  ∃ v,
    serialize p = inr v
    ∧ serve (update_products product_id) request db =
        ({| status_code := 200; body := Json v; location := None |},
         {| products := <[product_id := p]> (products db);
            sequence := sequence db |}).
Proof.
  intros Hct G Hj Hn Hl Hc Hp Hf p St.
  assert (n ≠ PNone) as Hnn.
  { intros ->. discriminate St. }
  apply Category_getitem_same_label in Hc.
  assert (deserialize (PDict m) p0 = (inr (), p)) as D.
  { rewrite deserialize_dict, Hn, Hl. simpl upper_method. cbv iota beta.
    now rewrite Hc, Hp, Hf. }
  assert (not_null p = true) as N.
  { unfold not_null. simpl. destruct n; congruence. }
  eexists. split; [reflexivity|].
  unfold serve, update_products, mbind, result_bind, get_json, call.
  rewrite (check_content_type_passes _ _ Hct), G, Hj, D.
  unfold update_commit. rewrite N. reflexivity.
Qed.

(** X3. A name of null passes deserialize and fails at the commit: with
    the JSON content type and a body whose name is null, whose category
    names a member and whose price [float] accepts, deserialize succeeds
    with the name None, POST /products answers 500 in the error envelope,
    not 400, and so does PUT /products/id on a stored id; no row is added
    or changed. *)
Theorem null_name_fails_at_commit (product_id : Z) (request : Request)
    (db : Database) (m : gmap string pyval) (label : string) (c : Category)
    (pv : pyval) (f : spec_float) :
  headers request !! "Content-Type" = Some "application/json" →
  json request = Some (PDict m) →
  m !! "name" = Some PNone →
  m !! "category" = Some (PStr label) →
  same_label label c →
  m !! "price" = Some pv →
  float pv = inr f →
  (∃ p, deserialize (PDict m) Product_new = (inr (), p) ∧ name p = PNone)
  ∧ status_code (serve create_products request db).1 = 500%Z
  ∧ enveloped (serve create_products request db).1
  ∧ products (serve create_products request db).2 = products db
  ∧ (is_Some (get db product_id) →
     status_code (serve (update_products product_id) request db).1 = 500%Z
     ∧ enveloped (serve (update_products product_id) request db).1
     ∧ products (serve (update_products product_id) request db).2 = products db).
Proof.
  intros Hct Hj Hn Hl Hc Hp Hf.
  apply Category_getitem_same_label in Hc.
  assert (∀ s, deserialize (PDict m) s =
               (inr (), assigned_price s PNone
                          (default (PStr "") (m !! "description")) c
                          (default (PBool true) (m !! "available")) f)) as D.
  { intros s. rewrite deserialize_dict, Hn, Hl. simpl upper_method. cbv iota beta.
    now rewrite Hc, Hp, Hf. }
  split; [eexists; split; [apply D|reflexivity]|].
  assert (serve create_products request db =
            (internal_server_error IntegrityError, db)) as Ec.
  { unfold serve, create_products, mbind, result_bind, get_json, call.
    now rewrite (check_content_type_passes _ _ Hct), Hj, D. }
  rewrite Ec. split; [reflexivity|].
  split; [apply enveloped_error_response|]. split; [reflexivity|].
  intros [p0 G].
  assert (serve (update_products product_id) request db =
            (internal_server_error IntegrityError, db)) as Eu.
  { unfold serve, update_products, mbind, result_bind, get_json, call.
    now rewrite (check_content_type_passes _ _ Hct), G, Hj, D. }
  rewrite Eu. split; [reflexivity|].
  split; [apply enveloped_error_response|reflexivity].
Qed.

(** X2. An ASCII category text that names no member is reported as a
    missing key: deserialize raises the validation error whose message is
    the prefix [Missing key: ] followed by the label in upper case, after
    name and description were assigned; POST /products with the JSON content
    type and such a body answers 400 with that error. *)
Theorem unknown_label_reported_as_missing_key (m : gmap string pyval)
    (n : pyval) (label : string) (self : Product) (request : Request)
    (db : Database) :
  m !! "name" = Some n →
  m !! "category" = Some (PStr label) →
  isascii label = true →
  unknown_label label →
  deserialize (PDict m) self =
    (inl (DataValidationError "Missing key: " (KeyError (upper label))),
     assigned_name self n (default (PStr "") (m !! "description")))
  ∧ (headers request !! "Content-Type" = Some "application/json" →
     json request = Some (PDict m) →
     serve create_products request db =
       (bad_request (DataValidationError "Missing key: " (KeyError (upper label))),
        db)).
Proof.
  intros Hn Hl _ U. apply Category_getitem_unknown_label in U.
  assert (∀ s, deserialize (PDict m) s =
               (inl (DataValidationError "Missing key: " (KeyError (upper label))),
                assigned_name s n (default (PStr "") (m !! "description")))) as D.
  { intros s. rewrite deserialize_dict, Hn, Hl. simpl upper_method. cbv iota beta.
    now rewrite U. }
  split; [apply D|]. intros Hct Hj.
  unfold serve, create_products, mbind, result_bind, get_json, call.
  now rewrite (check_content_type_passes _ _ Hct), Hj, D.
Qed.

(** X6. PUT /products/id with the JSON content type on an id that is not
    stored answers 404 whatever the body is, be it no JSON at all or a
    mapping deserialize would refuse; the table is left as it was. *)
Theorem update_missing_id_404 (product_id : Z) (request : Request)
    (db : Database) :
  headers request !! "Content-Type" = Some "application/json" →
  get db product_id = None →
  serve (update_products product_id) request db =
    (not_found (HTTPException 404 (not_found_description product_id)), db).
Proof.
  intros Hct G. unfold serve, update_products, mbind, result_bind.
  now rewrite (check_content_type_passes _ _ Hct), G.
Qed.

(** X1. The round trip from an object: when serialize returns a mapping
    for a product that has a price, deserialize of that mapping on any
    receiver succeeds and gives the receiver the product's name,
    description, category, available and price, and leaves the receiver's
    id. *)
Theorem serialize_then_deserialize (p self : Product) (v : pyval)
    (f : spec_float) :
  serialize p = inr v →
  price p = Some f →
  deserialize v self =
    (inr (),
     {| id := id self; name := name p; description := description p;
        category := category p; available := available p; price := price p |}).
Proof.
  intros Sz Pf.
  destruct (serialize_inr p v Sz) as (m & c & -> & Hc & _ & Hn & Hd & Hl & Ha & Hp).
  rewrite deserialize_dict, Hn, Hd, Hl, Ha, Hp, Pf, Hc. simpl.
  rewrite <- Category_name_upper_value, Category_getitem_name. reflexivity.
Qed.

(** A successful deserialize assigns values that depend on the input
    alone. *)
Lemma deserialize_inr_shape (data : pyval) (self p : Product) :
  deserialize data self = (inr (), p) →
  ∃ n d c a f, ∀ s, deserialize data s = (inr (), assigned_price s n d c a f).
Proof.
  destruct data as [| | | | | |m]; try discriminate.
  rewrite deserialize_dict. intros D.
  destruct (m !! "name") as [n|] eqn:Hn; [|discriminate].
  destruct (m !! "category") as [l|] eqn:Hl; [|discriminate].
  cbv zeta in D.
  destruct (upper_method l) as [?|u] eqn:U; [discriminate|].
  destruct (Category_getitem u) as [?|c] eqn:C; [discriminate|].
  destruct (m !! "price") as [pv|] eqn:Hp; [|discriminate].
  destruct (float pv) as [?|f] eqn:F; [discriminate|].
  exists n, (default (PStr "") (m !! "description")), c,
    (default (PBool true) (m !! "available")), f.
  intros s. rewrite deserialize_dict, Hn, Hl. cbv zeta. now rewrite U, C, Hp, F.
Qed.

(** X17. PUT and DELETE are idempotent: serving the same PUT
    /products/id, or the same DELETE /products/id, a second time on the
    table the first left gives the same response and the same table as the
    first time. *)
Theorem update_and_delete_idempotent (product_id : Z) (request : Request)
    (db : Database) :
  serve (update_products product_id) request
    (serve (update_products product_id) request db).2
  = serve (update_products product_id) request db
  ∧ serve (delete_products product_id) request
      (serve (delete_products product_id) request db).2
    = serve (delete_products product_id) request db.
Proof.
  split.
  - unfold serve at 2 3.
    destruct (update_products product_id request db) as [e|[r db1]] eqn:E.
    { simpl. unfold serve. now rewrite E. }
    simpl. unfold serve. revert E.
    unfold update_products, mbind, result_bind, get_json, call.
    destruct (check_content_type request "application/json") as [?|[]];
      [discriminate|].
    destruct (get db product_id) as [p0|]; [|discriminate].
    destruct (json request) as [data|]; [|discriminate].
    destruct (deserialize data p0) as [[?|[]] p] eqn:D; [discriminate|].
    unfold update_commit. destruct (not_null p) eqn:N; [|discriminate]. simpl.
    destruct (serialize p) as [?|v] eqn:Sz; [discriminate|].
    intros [= <- <-]. unfold get. cbn [products].
    rewrite lookup_insert_eq.
    destruct (deserialize_inr_shape _ _ _ D) as (n & d & c & a & f & Sh).
    rewrite Sh in D. injection D as <-. rewrite Sh.
    change (assigned_price (assigned_price p0 n d c a f) n d c a f)
      with (assigned_price p0 n d c a f).
    rewrite N. cbn [negb]. rewrite Sz. cbn [products sequence].
    now rewrite insert_insert_eq.
  - unfold serve, delete_products.
    destruct (get db product_id) as [p|] eqn:G; simpl.
    + unfold get, delete_commit. cbn [products]. now rewrite lookup_delete_eq.
    + now rewrite G.
Qed.

End WithGrammar.

End ViewsFacts.

(* ===================================================================== *)
(** ** Facts about the ids of the page elements                          *)
(* ===================================================================== *)
Module WebStepsFacts.
Import Py Vocabulary WebSteps.

(** One character through [lower] and then [replace]. *)
Definition normal_char (c : ascii) : ascii :=
  if Ascii.eqb (lower_char c) " " then "_"%char else lower_char c.

Lemma replace_space_lower_cons (c : ascii) (s : string) :
  replace_space (lower (String c s)) =
  String (normal_char c) (replace_space (lower s)).
Proof. reflexivity. Qed.

Lemma normal_char_idempotent (c : ascii) : normal_char (normal_char c) = normal_char c.
Proof. destruct c as [[] [] [] [] [] [] [] []]; reflexivity. Qed.

Lemma normal_char_plain (c : ascii) :
  normal_char c ≠ " "%char ∧ is_upper (normal_char c) = false.
Proof. destruct c as [[] [] [] [] [] [] [] []]; split; (discriminate || reflexivity). Qed.

Lemma normal_idempotent (s : string) :
  replace_space (lower (replace_space (lower s))) = replace_space (lower s).
Proof.
  induction s as [|c s IH]; [reflexivity|].
  rewrite !replace_space_lower_cons, IH. now rewrite normal_char_idempotent.
Qed.

Lemma normal_length (s : string) :
  String.length (replace_space (lower s)) = String.length s.
Proof.
  induction s as [|c s IH]; [reflexivity|].
  rewrite replace_space_lower_cons. simpl. now rewrite IH.
Qed.

Lemma normal_chars (s : string) (c : ascii) :
  In c (list_ascii_of_string (replace_space (lower s))) →
  c ≠ " "%char ∧ is_upper c = false.
Proof.
  induction s as [|d s IH]; [intros []|].
  rewrite replace_space_lower_cons. intros [<-|I].
  - apply normal_char_plain.
  - now apply IH.
Qed.

Lemma append_length (s t : string) :
  String.length (s ++ t) = String.length s + String.length t.
Proof.
  induction s as [|c s IH]; [reflexivity|].
  change (S (String.length (s ++ t)) = S (String.length s + String.length t)).
  now rewrite IH.
Qed.

(** X16. For an ASCII field name the id a step computes is the prefix
    [product_] followed by a tail of as many characters as the field name
    has, none of them a space or an upper-case letter, and the tail taken as
    a field name gives the same id, so that names that differ only by letter
    case or by spaces written as underscores share an id.  For an ASCII
    button name the id is such a stem followed by the suffix [-btn]. *)
Theorem element_id_normal (field_name button : string) :
  isascii field_name = true →
  isascii button = true →
  (∃ tail,
     element_id field_name = "product_" ++ tail
     ∧ String.length tail = String.length field_name
     ∧ (∀ c, In c (list_ascii_of_string tail) →
             c ≠ " "%char ∧ is_upper c = false)
     ∧ element_id tail = element_id field_name)
  ∧ (∃ stem,
       button_id button = stem ++ "-btn"
       ∧ String.length stem = String.length button
       ∧ (∀ c, In c (list_ascii_of_string stem) →
               c ≠ " "%char ∧ is_upper c = false)
       ∧ button_id stem = button_id button).
Proof.
  intros _ _. unfold element_id, button_id, ID_PREFIX. split.
  - exists (replace_space (lower field_name)).
    split; [reflexivity|]. split; [apply normal_length|].
    split; [apply normal_chars|]. now rewrite normal_idempotent.
  - exists (replace_space (lower button)).
    split; [reflexivity|]. split; [apply normal_length|].
    split; [apply normal_chars|]. now rewrite normal_idempotent.
Qed.

End WebStepsFacts.

(* ===================================================================== *)
(** ** The facts above at sample data                                    *)
(* ===================================================================== *)
Module Samples.
Import Py Models Db Routes Spec Vocabulary ModelQueries WebSteps Examples
  PyFacts ModelsFacts RoutesFacts ModelQueriesFacts ViewsFacts WebStepsFacts.

Lemma serialize_then_deserialize_witness :
  deserialize (H:=digits_grammar)
    (PDict {[ "id" := PInt 1; "name" := PStr "Hat";
              "description" := PStr "A red hat"; "category" := PStr "Clothing";
              "available" := PBool true;
              "price" := PFloat (S754_finite false 25 (-1)) ]})
    Product_new
  = (inr (),
     {| id := None; name := PStr "Hat"; description := PStr "A red hat";
        category := Some CLOTHING; available := PBool true;
        price := Some (S754_finite false 25 (-1)) |}).
Proof.
  pose proof (serialize_then_deserialize (H:=digits_grammar) hat Product_new
                (PDict {[ "id" := PInt 1; "name" := PStr "Hat";
                          "description" := PStr "A red hat";
                          "category" := PStr "Clothing";
                          "available" := PBool true;
                          "price" := PFloat (S754_finite false 25 (-1)) ]})
                (S754_finite false 25 (-1)) eq_refl eq_refl) as W.
  vm_compute in W. vm_compute. exact W.
Defined.

Lemma unknown_label_reported_as_missing_key_witness :
  deserialize (H:=digits_grammar)
    (PDict {[ "name" := PStr "Cap"; "category" := PStr "zzz" ]}) hat
  = (inl (DataValidationError "Missing key: " (KeyError "ZZZ")),
     assigned_name hat (PStr "Cap") (PStr "")).
Proof.
  pose proof (proj1 (unknown_label_reported_as_missing_key (H:=digits_grammar)
                       {[ "name" := PStr "Cap"; "category" := PStr "zzz" ]}
                       (PStr "Cap") "zzz" hat (json_request PNone) empty_db
                       eq_refl eq_refl eq_refl
                       (proj1 (category_of_label_None "zzz") eq_refl))) as W.
  vm_compute in W. vm_compute. exact W.
Defined.

Lemma null_name_fails_at_commit_witness :
  status_code
    (serve (create_products (H:=digits_grammar))
       (json_request (PDict {[ "name" := PNone; "category" := PStr "Food";
                               "price" := PInt 3 ]}))
       empty_db).1
  = 500%Z.
Proof.
  pose proof (proj1 (proj2 (null_name_fails_at_commit (H:=digits_grammar) 1
                (json_request (PDict {[ "name" := PNone; "category" := PStr "Food";
                                        "price" := PInt 3 ]}))
                empty_db
                {[ "name" := PNone; "category" := PStr "Food"; "price" := PInt 3 ]}
                "Food" FOOD (PInt 3) (S754_finite false 6755399441055744 (-51))
                eq_refl eq_refl eq_refl eq_refl eq_refl eq_refl eq_refl))) as W.
  vm_compute in W. vm_compute. exact W.
Defined.

Lemma create_then_get_witness :
  location
    (serve (create_products (H:=digits_grammar))
       (json_request (PDict {[ "name" := PStr "Hat"; "category" := PStr "Food";
                               "price" := PInt 3 ]}))
       empty_db).1
  = Some "/products/1".
Proof.
  pose proof (create_then_get (H:=digits_grammar)
                (json_request (PDict {[ "name" := PStr "Hat";
                                        "category" := PStr "Food";
                                        "price" := PInt 3 ]}))
                (query_request []) empty_db) as W.
  assert (status_code
            (serve (create_products (H:=digits_grammar))
               (json_request (PDict {[ "name" := PStr "Hat";
                                       "category" := PStr "Food";
                                       "price" := PInt 3 ]}))
               empty_db).1 = 201%Z) as St by (vm_compute; reflexivity).
  specialize (W St). destruct W as (m & _ & _ & L & _).
  vm_compute in L. vm_compute. exact L.
Defined.

Lemma update_replaces_every_field_witness :
  get (serve (update_products (H:=digits_grammar) 1)
         (json_request (PDict {[ "name" := PStr "Cap"; "category" := PStr "food";
                                 "price" := PInt 3 ]}))
         hat_db).2 1
  = Some {| id := Some 1%Z; name := PStr "Cap"; description := PStr "";
            category := Some FOOD; available := PBool true;
            price := Some (S754_finite false 6755399441055744 (-51)) |}.
Proof.
  pose proof (update_replaces_every_field (H:=digits_grammar) 1
              (json_request (PDict {[ "name" := PStr "Cap";
                                      "category" := PStr "food";
                                      "price" := PInt 3 ]}))
              hat_db hat
              {[ "name" := PStr "Cap"; "category" := PStr "food";
                 "price" := PInt 3 ]}
              (PStr "Cap") "food" FOOD (PInt 3)
              (S754_finite false 6755399441055744 (-51))
              eq_refl eq_refl eq_refl eq_refl
              eq_refl eq_refl eq_refl eq_refl eq_refl) as (v & _ & E).
  rewrite E. vm_compute. reflexivity.
Defined.

Lemma update_missing_id_404_witness :
  serve (update_products (H:=digits_grammar) 7)
    {| headers := {[ "Content-Type" := "application/json" ]}; args := [];
       json := None |}
    hat_db
  = (not_found (HTTPException 404 "Product with id '7' was not found."), hat_db).
Proof.
  pose proof (update_missing_id_404 (H:=digits_grammar) 7
                {| headers := {[ "Content-Type" := "application/json" ]};
                   args := []; json := None |}
                hat_db eq_refl eq_refl) as W.
  vm_compute in W. vm_compute. exact W.
Defined.

Lemma list_products_exact_witness :
  ∃ vs,
    serve list_products (query_request [("name", "Hat")]) hat_db =
      ({| status_code := 200; body := Json (PList vs); location := None |}, hat_db)
    ∧ List.length vs = 1.
Proof.
  destruct (list_products_exact (query_request [("name", "Hat")]) hat_db
              hat_db_schema) as (q & vs & Q & R & L & _).
  exists vs. split; [exact R|]. rewrite L.
  vm_compute in Q. injection Q as <-. vm_compute. reflexivity.
Defined.

Lemma list_products_by_available_witness :
  ∃ vs,
    serve list_products (query_request [("available", "YES")]) hat_db =
      ({| status_code := 200; body := Json (PList vs); location := None |}, hat_db)
    ∧ List.length vs = 1.
Proof.
  destruct (list_products_by_available (query_request [("available", "YES")])
              hat_db "YES" hat_db_schema eq_refl eq_refl eq_refl)
    as (vs & R & L & _).
  exists vs. split; [exact R|]. rewrite L. vm_compute. reflexivity.
Defined.

Lemma get_products_found_or_404_witness :
  serve (get_products 0) (query_request []) hat_db
  = (not_found (HTTPException 404 "Product with id '0' was not found."), hat_db).
Proof.
  pose proof (get_products_found_or_404 0 (query_request []) hat_db
                hat_db_schema) as W.
  vm_compute in W. vm_compute. exact W.
Defined.

Lemma requests_keep_schema_witness :
  status_code
    (serve list_products (query_request [("category", "food")])
       (run (H:=digits_grammar)
          [(CreateProducts,
            json_request (PDict {[ "name" := PStr "Hat"; "category" := PStr "Food";
                                   "price" := PInt 3 ]}));
           (DeleteProducts 1, query_request [])]
          empty_db)).1
  = 200%Z.
Proof.
  exact (proj2 (requests_keep_schema (H:=digits_grammar)
                  [(CreateProducts,
                    json_request (PDict {[ "name" := PStr "Hat";
                                           "category" := PStr "Food";
                                           "price" := PInt 3 ]}));
                   (DeleteProducts 1, query_request [])]
                  (query_request [("category", "food")]) empty_db
                  empty_db_schema)).
Defined.

Lemma create_then_find_witness :
  find {| products := {[ 1%Z := hat ]}; sequence := 2 |} 1 = Some hat.
Proof.
  destruct (create_then_find
              {| id := None; name := PStr "Hat"; description := PStr "A red hat";
                 category := Some CLOTHING; available := PBool true;
                 price := Some (S754_finite false 25 (-1)) |}
              hat empty_db {| products := {[ 1%Z := hat ]}; sequence := 2 |}
              eq_refl eq_refl) as (k & I & _ & F & _).
  injection I as <-. exact F.
Defined.

Lemma find_by_name_contains_witness :
  ∃ rows, find_by_name "hat" hat_db = Some rows ∧ hat ∈ rows.
Proof.
  destruct (find_by_name_contains "hat" hat_db eq_refl) as (rows & E & _ & C & _).
  exists rows. split; [exact E|].
  apply (C hat "Hat"); [now exists 1%Z|reflexivity|].
  now exists "", "Hat", "".
Defined.

Lemma element_id_normal_witness :
  ∃ tail,
    element_id "Product Name" = "product_" ++ tail
    ∧ element_id tail = element_id "Product Name".
Proof.
  destruct (proj1 (element_id_normal "Product Name" "Create" eq_refl eq_refl))
    as (tail & E & _ & _ & I).
  exists tail. split; [exact E|exact I].
Defined.

End Samples.
